(** * Auth-state store and mock image search: a shallow embedding

    The development follows [src/hooks/useAuth.tsx], [src/lib/api.ts] and the
    Express image-search router.  [useAuth.tsx] holds three
    revisions of [AuthProvider]; they are embedded as the modules [V1]
    (lines 54-384, the revision with [loginPromiseRef]), [V2] (lines 436-766)
    and [V3] (lines 818-1105).

    Conventions.
    - A JavaScript object is a finite map from property names to values.
    - [localStorage] and [sessionStorage] are finite maps from keys to strings.
    - An [async] function is a computation in the monad [M]: it threads the
      store and either completes with a value or throws.  What the backend
      and the hosted service answer is read from an [Env] record, so every
      function is total and can be evaluated.
    - A closure reads [user] as it was when the function was called; [setUser]
      writes the store. *)

From Stdlib Require Import QArith.
From stdpp Require Import base option gmap strings list sorting.

Set Default Proof Using "Type".
Open Scope string_scope.
Open Scope list_scope.

(** ** JavaScript values *)

Inductive jsval :=
| JStr (s : string)
| JBool (b : bool)
| JNull.

#[global] Instance jsval_eq_dec : EqDecision jsval.
Proof. solve_decision. Defined.

Abbreviation JsObject := (gmap string jsval).

(** [interface AuthUser]: an object with the properties [id], [name],
    [email], [bio], [updated_at], ... *)
Abbreviation AuthUser := (gmap string jsval).

(** A thrown value: an [Error] carrying a message, or anything else. *)
Inductive JsError :=
| Error (message : string)
| AbortError (message : string)
| ThrownValue (what : string).

(** [error instanceof Error ? error.message : fallback] *)
Definition message_or (fallback : string) (e : JsError) : string :=
  match e with
  | Error m | AbortError m => m
  | ThrownValue _ => fallback
  end.

(** [error.message || fallback] *)
Definition message_or_falsy (fallback : string) (e : JsError) : string :=
  match e with
  | Error m | AbortError m => if decide (m = EmptyString) then fallback else m
  | ThrownValue _ => fallback
  end.

(** Truthiness of a string: only the empty string is falsy. *)
Definition truthy (s : string) : bool := bool_decide (s ≠ EmptyString).

(** ** What the outside world answers *)

Inductive Outcome (A : Type) :=
| Rejects (e : JsError)
| Resolves (a : A).
Arguments Rejects {A} e.
Arguments Resolves {A} a.

Record Session := { access_token : string; refresh_token : string }.

(** The user of the hosted auth service, as [fetchUserProfile] reads it:
    [id], [email] and [user_metadata?.name]. *)
Record SupaUser := { su_id : string; su_email : string; su_name : option string }.

(** [{ data: { user }, error }] of [supabase.auth.getUser] *)
Record UserResponse := { u_user : option SupaUser; u_error : option string }.

(** [{ data, error }] of a query ending in [.single()] *)
Record QueryResult := { data : option AuthUser; error : option string }.

(** Body of a backend answer to [/auth/register] or [/auth/login]. *)
Record ApiResponse := {
  r_user : option AuthUser;
  r_session : option Session;
  r_tokens : option (string * string)  (* top-level access_token, refresh_token *)
}.

Record RegisterData := {
  rd_name : string; rd_email : string; rd_password : string;
  rd_phone : option string; rd_gender : string
}.

Record Env := {
  fetch_o : Outcome (option ApiResponse);   (* ApiClient._fetch *)
  getSession_o : Outcome (option Session);  (* supabase.auth.getSession *)
  getUser_o : Outcome UserResponse;          (* supabase.auth.getUser *)
  setSession_o : Outcome (option string);   (* supabase.auth.setSession: { error } *)
  signOut_o : Outcome (option string);      (* supabase.auth.signOut: { error } *)
  select_o : Outcome QueryResult;           (* from('users').select().eq().single() *)
  insert_o : Outcome QueryResult;           (* from('users').insert().select().single() *)
  update_o : Outcome QueryResult;           (* from('users').update().eq().select().single() *)
  now : string                              (* new Date().toISOString() *)
}.

(** ** Observable effects *)

Inductive Effect :=
| Fetch (endpoint : string) (body : JsObject)
| GetSession
| GetUser (token : option string)
| SetSession (s : option Session)
| SignOut
| SelectUser (id : string)
| InsertUser (row : JsObject)
| UpdateUser (payload : JsObject) (key : option jsval)
| ToastSuccess (m : string)
| ToastError (m : string)
| ConsoleLog (m : string)
| ConsoleWarn (m : string)
| ConsoleError (m : string)
| SetTimeout (ms : nat)
| Reload
| Background (token : string).

#[global] Instance Session_eq_dec : EqDecision Session.
Proof. solve_decision. Defined.
#[global] Instance Effect_eq_dec : EqDecision Effect.
Proof. solve_decision. Defined.

(** ** The store *)

Record State := mkState {
  user : option AuthUser;
  isLoading : bool;
  loginPromiseRef : option nat;   (* the in-flight login promise, if any *)
  promiseCount : nat;             (* login promises created so far *)
  localStorage : gmap string string;
  sessionStorage : gmap string string;
  effects : list Effect
}.

Definition isAuthenticated (s : State) : bool := bool_decide (is_Some (user s)).

Definition initial (ls ss : gmap string string) : State :=
  mkState None true None 0 ls ss [].

(** ** Computations that read and write the store and may throw *)

Inductive Result (A : Type) :=
| Ok (a : A)
| Threw (e : JsError).
Arguments Ok {A} a.
Arguments Threw {A} e.

Definition M (A : Type) : Type := State → Result A * State.

Definition ret {A} (a : A) : M A := λ s, (Ok a, s).

Definition bind {A B} (m : M A) (k : A → M B) : M B :=
  λ s, match m s with
       | (Ok a, s') => k a s'
       | (Threw e, s') => (Threw e, s')
       end.

Definition throw {A} (e : JsError) : M A := λ s, (Threw e, s).

Definition try_catch {A} (body : M A) (handler : JsError → M A) : M A :=
  λ s, match body s with
       | (Ok a, s') => (Ok a, s')
       | (Threw e, s') => handler e s'
       end.

Definition try_finally {A} (body : M A) (fin : M unit) : M A :=
  λ s, match body s with
       | (r, s') => match fin s' with
                    | (Ok _, s'') => (r, s'')
                    | (Threw e, s'') => (Threw e, s'')
                    end
       end.

Declare Scope js_scope.
Delimit Scope js_scope with js.
Notation "x <- m ;; k" := (bind m (λ x, k))
  (at level 100, m at next level, right associativity) : js_scope.
Notation "m ;; k" := (bind m (λ _, k))
  (at level 100, right associativity) : js_scope.
Open Scope js_scope.

Definition gets {A} (f : State → A) : M A := λ s, (Ok (f s), s).
Definition modify (f : State → State) : M unit := λ s, (Ok tt, f s).
Definition when (b : bool) (m : M unit) : M unit := if b then m else ret tt.

Definition effect (e : Effect) : M unit :=
  modify (λ s, mkState (user s) (isLoading s) (loginPromiseRef s) (promiseCount s)
                       (localStorage s) (sessionStorage s) (effects s ++ [e])).

(** [await] of a call to the outside: the call is recorded, its answer is
    the given outcome. *)
Definition await {A} (e : Effect) (o : Outcome A) : M A :=
  effect e ;;
  match o with
  | Rejects err => throw err
  | Resolves a => ret a
  end.

Definition setUser (u : option AuthUser) : M unit :=
  modify (λ s, mkState u (isLoading s) (loginPromiseRef s) (promiseCount s)
                       (localStorage s) (sessionStorage s) (effects s)).

Definition setIsLoading (b : bool) : M unit :=
  modify (λ s, mkState (user s) b (loginPromiseRef s) (promiseCount s)
                       (localStorage s) (sessionStorage s) (effects s)).

Definition setLoginPromiseRef (p : option nat) : M unit :=
  modify (λ s, mkState (user s) (isLoading s) p (promiseCount s)
                       (localStorage s) (sessionStorage s) (effects s)).

Definition with_localStorage (f : gmap string string → gmap string string) : M unit :=
  modify (λ s, mkState (user s) (isLoading s) (loginPromiseRef s) (promiseCount s)
                       (f (localStorage s)) (sessionStorage s) (effects s)).

Definition with_sessionStorage (f : gmap string string → gmap string string) : M unit :=
  modify (λ s, mkState (user s) (isLoading s) (loginPromiseRef s) (promiseCount s)
                       (localStorage s) (f (sessionStorage s)) (effects s)).

Definition localStorage_setItem (k v : string) : M unit := with_localStorage (insert k v).
Definition localStorage_removeItem (k : string) : M unit := with_localStorage (delete k).
Definition localStorage_getItem (k : string) : M (option string) :=
  gets (λ s, localStorage s !! k).
Definition sessionStorage_clear : M unit := with_sessionStorage (λ _, ∅).

(** [Object.keys(storage)] *)
Definition Object_keys (m : gmap string string) : list string := (map_to_list m).*1.

(** [key.startsWith(p)] *)
Definition startsWith (p key : string) : bool := String.prefix p key.

(** [Object.keys(storage).forEach((key) => { if (key.startsWith('sb-')) storage.removeItem(key); })] *)
Definition remove_sb_keys (m : gmap string string) : gmap string string :=
  foldl (λ acc key, if startsWith "sb-" key then delete key acc else acc)
        m (Object_keys m).

Definition console_log (m : string) : M unit := effect (ConsoleLog m).
Definition console_warn (m : string) : M unit := effect (ConsoleWarn m).
Definition console_error (m : string) : M unit := effect (ConsoleError m).
Definition toast_success (m : string) : M unit := effect (ToastSuccess m).
Definition toast_error (m : string) : M unit := effect (ToastError m).

(** A block of statements one of which may throw: [fault = Some (k, e)]
    makes statement [k] throw [e] in place of running. *)
Fixpoint block (fault : option (nat * JsError)) (stmts : list (M unit)) : M unit :=
  match stmts with
  | [] => ret tt
  | m :: rest =>
      match fault with
      | Some (0, e) => throw e
      | Some (S k, e) => m ;; block (Some (k, e)) rest
      | None => m ;; block None rest
      end
  end.

(** [JSON.stringify] and [JSON.parse] on what the store keeps under
    ['auth_user']: a profile or [null].  [JSON_parse] answers [None] where
    the runtime throws a [SyntaxError]. *)
Class Json := {
  JSON_stringify : option AuthUser → string;
  JSON_parse : string → option (option AuthUser)
}.

(** ** The backend-API client ([src/lib/api.ts]) *)

Module ApiClient.

(** [_fetch], first half: the request leaves when the function is called. *)
Definition fetch_request (endpoint : string) (body : JsObject) : M unit :=
  effect (Fetch endpoint body).

(** [_fetch], second half: the answer.  A non-2xx answer is an [Error]
    with the backend's message; an abort becomes the time-out error. *)
Definition fetch_response (env : Env) : M (option ApiResponse) :=
  match fetch_o env with
  | Rejects (AbortError _) => throw (Error "Request timed out. Please try again.")
  | Rejects e => console_error "API request failed:" ;; throw e
  | Resolves r => ret r
  end.

Definition _fetch (endpoint : string) (body : JsObject) (env : Env)
  : M (option ApiResponse) :=
  fetch_request endpoint body ;; fetch_response env.

Definition register_body (d : RegisterData) : JsObject :=
  let base : JsObject :=
    {[ "name" := JStr (rd_name d); "email" := JStr (rd_email d);
       "password" := JStr (rd_password d); "gender" := JStr (rd_gender d) ]} in
  match rd_phone d with
  | Some p => <["phone" := JStr p]> base
  | None => base
  end.

Definition credentials (email password : string) : JsObject :=
  {[ "email" := JStr email; "password" := JStr password ]}.

Definition register (d : RegisterData) (env : Env) : M (option ApiResponse) :=
  try_catch (_fetch "/auth/register" (register_body d) env)
            (λ e, console_error "Registration error:" ;; throw e).

(** [isAuthWithTokens]: the answer carries both tokens as strings. *)
Definition isAuthWithTokens (r : option ApiResponse) : option (string * string) :=
  r ≫= r_tokens.

(** [login] after its request has left. *)
Definition login_response (env : Env) : M (option ApiResponse) :=
  try_catch
    (response <- fetch_response env ;;
     match isAuthWithTokens response with
     | Some (a, r) =>
         await (SetSession (Some {| access_token := a; refresh_token := r |}))
               (setSession_o env) ;;
         ret response
     | None => ret response
     end)
    (λ e, console_error "Login error:" ;; throw e).

Definition login_request (email password : string) : M unit :=
  fetch_request "/auth/login" (credentials email password).

Definition login (email password : string) (env : Env) : M (option ApiResponse) :=
  login_request email password ;; login_response env.

(** [updateUser(_id, userData)]: the row is the one of the user the
    hosted service reports, whatever [_id] is. *)
Definition updateUser (_id : string) (userData : JsObject) (env : Env)
  : M (option AuthUser) :=
  r <- await (GetUser None) (getUser_o env) ;;
  match u_error r, u_user r with
  | Some msg, _ => throw (Error msg)
  | None, None => throw (Error "Not authenticated")
  | None, Some su =>
      q <- await (UpdateUser (<["updated_at" := JStr (now env)]> userData)
                             (Some (JStr (su_id su))))
                 (update_o env) ;;
      match error q with
      | Some msg => throw (Error msg)
      | None => ret (data q)
      end
  end.

End ApiClient.

(** ** First revision of the store ([useAuth.tsx], lines 54-384) *)

Module V1.
Section WithJson.
Context `{Json}.

(** The row inserted when the hosted user has no profile yet. *)
Definition new_profile_row (au : SupaUser) (env : Env) : JsObject :=
  {[ "id" := JStr (su_id au);
     "name" := JStr (match su_name au with
                     | Some n => if truthy n then n else su_email au
                     | None => su_email au
                     end);
     "email" := JStr (su_email au);
     "created_at" := JStr (now env);
     "updated_at" := JStr (now env) ]}.

Definition store_profile (p : option AuthUser) : M unit :=
  localStorage_setItem "auth_user" (JSON_stringify p) ;;
  setUser p.

Definition fetchUserProfile (token : string) (env : Env) : M unit :=
  try_finally
    (try_catch
       (userResponse <- await (GetUser (Some token)) (getUser_o env) ;;
        console_log "fetchUserProfile: authUser" ;;
        match u_user userResponse with
        | Some authUser =>
            q <- await (SelectUser (su_id authUser)) (select_o env) ;;
            console_log "fetchUserProfile: profile" ;;
            match error q, data q with
            | None, Some profile => store_profile (Some profile)
            | _, _ =>
                insertRes <- await (InsertUser (new_profile_row authUser env))
                                   (insert_o env) ;;
                match error insertRes, data insertRes with
                | None, Some newProfile => store_profile (Some newProfile)
                | _, _ => console_warn "Failed to create user profile"
                end
            end
        | None => console_warn "No Supabase user found during profile fetch"
        end)
       (λ _, console_error "Failed to fetch user profile:"))
    (setIsLoading false).

(** The token of [session?.access_token], when truthy. *)
Definition session_token (session : option Session) : option string :=
  match session with
  | Some sess => if truthy (access_token sess) then Some (access_token sess) else None
  | None => None
  end.

(** [checkAuth] of the mount effect. *)
Definition checkAuth (env : Env) : M unit :=
  user0 <- gets user ;;
  try_finally
    (try_catch
       (session <- await GetSession (getSession_o env) ;;
        match session_token session with
        | Some token => fetchUserProfile token env
        | None =>
            match user0 with
            | None => localStorage_removeItem "auth_user" ;; setUser None
            | Some _ => ret tt
            end
        end)
       (λ _, console_error "Auth check failed:"))
    (setIsLoading false).

Inductive AuthChangeEvent := SIGNED_IN | SIGNED_OUT | TOKEN_REFRESHED | OTHER_EVENT.

(** The listener given to [onAuthStateChange]. *)
Definition onAuthStateChange (event : AuthChangeEvent) (session : option Session)
    (env : Env) : M unit :=
  console_log "Auth state change:" ;;
  match event, session_token session with
  | SIGNED_IN, Some token => fetchUserProfile token env
  | SIGNED_OUT, _ =>
      localStorage_removeItem "auth_user" ;; setUser None ;; setIsLoading false
  | TOKEN_REFRESHED, Some token => fetchUserProfile token env
  | _, _ => ret tt
  end.

(** Installing the session a backend answer carries: best effort. *)
Definition install_session (sess : Session) (env : Env) : M unit :=
  try_catch
    (sessionError <- await (SetSession (Some sess)) (setSession_o env) ;;
     match sessionError with
     | Some _ => console_warn "Session setting failed, but continuing with manual auth:"
     | None => ret tt
     end)
    (λ _, console_warn "Session setting failed, but continuing with manual auth:").

Definition register (d : RegisterData) (env : Env) : M unit :=
  try_finally
    (try_catch
       (setIsLoading true ;;
        response <- ApiClient.register d env ;;
        match response with
        | None => throw (Error "Cannot read properties of null (reading 'session')")
        | Some response =>
            match r_session response with
            | Some sess => install_session sess env
            | None => ret tt
            end ;;
            match r_user response with
            | Some u => store_profile (Some u)
            | None => ret tt
            end ;;
            toast_success "Account created successfully!"
        end)
       (λ e, console_error "Registration error:" ;;
             toast_error (message_or "Registration failed" e) ;;
             throw e))
    (setIsLoading false).

(** The body of the promise [login] creates, after the request of
    [apiClient.login] has left (lines 195-234). *)
Definition login_task (env : Env) : M bool :=
  try_finally
    (try_catch
       (response <- ApiClient.login_response env ;;
        console_log "Login response:" ;;
        match response ≫= r_user with
        | Some u =>
            store_profile (Some u) ;;
            try_catch
              (session <- await GetSession (getSession_o env) ;;
               match session_token session with
               | Some token => effect (Background token)
               | None => ret tt
               end)
              (λ _, console_warn "getSession failed after login:") ;;
            toast_success "Logged in successfully!" ;;
            ret true
        | None =>
            toast_error "Login failed: No user returned" ;;
            setUser None ;;
            localStorage_removeItem "auth_user" ;;
            ret false
        end)
       (λ e, console_error "Login error:" ;;
             toast_error (message_or "Login failed" e) ;;
             setUser None ;;
             localStorage_removeItem "auth_user" ;;
             ret false))
    (setIsLoading false ;;
     setLoginPromiseRef None ;;
     console_log "[Auth] setIsLoading(false) called in login.finally").

Definition new_promise : M nat :=
  p <- gets promiseCount ;;
  modify (λ s, mkState (user s) (isLoading s) (loginPromiseRef s) (S (promiseCount s))
                       (localStorage s) (sessionStorage s) (effects s)) ;;
  ret p.

(** [login] up to the promise it returns (lines 188-193, 237-238): the
    in-flight promise if there is one, else a new one whose request has
    left. *)
Definition login_call (email password : string) : M nat :=
  current <- gets loginPromiseRef ;;
  match current with
  | Some p => ret p
  | None =>
      setIsLoading true ;;
      ApiClient.login_request email password ;;
      promise <- new_promise ;;
      setLoginPromiseRef (Some promise) ;;
      ret promise
  end.

(** A call of [login] run to the end of the promise it started. *)
Definition login (email password : string) (env : Env) : M bool :=
  login_call email password ;; login_task env.

(** The cleanup of [logout], as the [try] block and as the [catch] block
    have it. *)
Definition clear_storage : list (M unit) :=
  [ localStorage_removeItem "auth_user";
    setUser None;
    with_localStorage remove_sb_keys;
    with_sessionStorage remove_sb_keys;
    sessionStorage_clear ].

Definition sign_out_best_effort (env : Env) : M unit :=
  try_catch
    (signOutResult <- await SignOut (signOut_o env) ;;
     await (SetSession None) (setSession_o env) ;;
     match signOutResult with
     | Some _ => console_warn "Supabase logout failed:"
     | None => console_log "Supabase signOut succeeded"
     end)
    (λ _, console_warn "Supabase logout threw error:").

(** [logout] (lines 241-317).  The sign-out has its own [try]; [fault]
    lets a statement of the outer [try] block throw, which is how the
    [catch] block is reached. *)
Definition logout (env : Env) (fault : option (nat * JsError)) : M unit :=
  try_catch
    (block fault
       ([ console_log "Logout: starting";
          sign_out_best_effort env ] ++
        clear_storage ++
        [ console_log "Logout: cleared localStorage, sessionStorage, setUser(null)";
          toast_success "Logged out successfully";
          effect (SetTimeout 500) ]))
    (λ _, console_error "Logout error:" ;;
          block None
            (clear_storage ++
             [ toast_success "Logged out"; effect (SetTimeout 500) ])).

Definition window_location_reload : M unit :=
  modify (λ s, mkState None true None (promiseCount s)
                       (localStorage s) (sessionStorage s) (effects s ++ [Reload])).

(** The callback [logout] schedules (lines 276-289, 303-315). *)
Definition logout_timer (env : Env) : M unit :=
  await SignOut (signOut_o env) ;;
  await (SetSession None) (setSession_o env) ;;
  localStorage_removeItem "auth_user" ;;
  with_localStorage remove_sb_keys ;;
  with_sessionStorage remove_sb_keys ;;
  sessionStorage_clear ;;
  window_location_reload.

Definition updateUser (payload : JsObject) (env : Env) : M unit :=
  user0 <- gets user ;;
  try_catch
    (match user0 with
     | None => throw (Error "No user logged in")
     | Some u =>
         q <- await (UpdateUser (<["updated_at" := JStr (now env)]> payload) (u !! "id"))
                    (update_o env) ;;
         match error q with
         | Some _ =>
             console_error "Update error:" ;;
             throw (Error "Failed to update profile")
         | None =>
             store_profile (data q) ;;
             toast_success "Profile updated successfully!"
         end
     end)
    (λ e, console_error "Update error:" ;;
          toast_error (message_or "Update failed" e) ;;
          throw e).

Definition refreshUser (env : Env) : M unit :=
  user0 <- gets user ;;
  try_catch
    (session <- await GetSession (getSession_o env) ;;
     match session_token session with
     | Some token => fetchUserProfile token env
     | None =>
         storedUser <- localStorage_getItem "auth_user" ;;
         match storedUser, user0 with
         | Some text, None =>
             if truthy text then
               match JSON_parse text with
               | Some parsed => setUser parsed
               | None => localStorage_removeItem "auth_user"
               end
             else ret tt
         | _, _ => ret tt
         end
     end)
    (λ _, console_error "Failed to refresh user:").

End WithJson.
End V1.

(** ** Second revision ([useAuth.tsx], lines 436-766)

    [register], [logout] and [updateUser] are those of [V1]. *)

Module V2.
Section WithJson.
Context `{Json}.

Definition fetchUserProfile (token : string) (env : Env) : M unit :=
  try_catch
    (userResponse <- await (GetUser (Some token)) (getUser_o env) ;;
     console_log "fetchUserProfile: authUser" ;;
     match u_user userResponse with
     | Some authUser =>
         q <- await (SelectUser (su_id authUser)) (select_o env) ;;
         console_log "fetchUserProfile: profile" ;;
         match error q, data q with
         | None, Some profile => V1.store_profile (Some profile)
         | _, _ =>
             insertRes <- await (InsertUser (V1.new_profile_row authUser env))
                                (insert_o env) ;;
             match error insertRes, data insertRes with
             | None, Some newProfile => V1.store_profile (Some newProfile)
             | _, _ =>
                 toast_error "Failed to create user profile" ;;
                 setUser None
             end
         end
     | None =>
         toast_error "No Supabase user found" ;;
         setUser None
     end)
    (λ _, console_error "Failed to fetch user profile:" ;;
          toast_error "Failed to fetch user profile" ;;
          setUser None).

Definition login_failed (why : string) : M bool :=
  toast_error why ;;
  setUser None ;;
  localStorage_removeItem "auth_user" ;;
  setIsLoading false ;;
  ret false.

Definition login (email password : string) (env : Env) : M bool :=
  user0 <- gets user ;;
  try_catch
    (setIsLoading true ;;
     response <- ApiClient.login email password env ;;
     console_log "Login response:" ;;
     match response with
     | Some response =>
         match r_user response, r_session response with
         | None, None => login_failed "Login failed: No user or session returned"
         | _, session =>
             profileFetched <-
               match session with
               | Some sess =>
                   try_catch
                     (sessionError <- await (SetSession (Some sess)) (setSession_o env) ;;
                      match sessionError with
                      | Some _ =>
                          console_warn
                            "Session setting failed, but continuing with manual auth:"
                      | None => ret tt
                      end ;;
                      if truthy (access_token sess) then
                        fetchUserProfile (access_token sess) env ;; ret true
                      else ret false)
                     (λ _, console_warn
                             "Session setting failed, but continuing with manual auth:" ;;
                           ret false)
               | None => ret false
               end ;;
             if profileFetched && bool_decide (is_Some user0) then
               toast_success "Logged in successfully!" ;;
               setIsLoading false ;;
               ret true
             else login_failed "Login failed: Could not fetch user profile"
         end
     | None => login_failed "Login failed: No user or session returned"
     end)
    (λ e, console_error "Login error:" ;;
          login_failed (message_or_falsy "Login failed" e)).

Definition refreshUser (env : Env) : M unit :=
  user0 <- gets user ;;
  try_catch
    (session <- await GetSession (getSession_o env) ;;
     match V1.session_token session with
     | Some token => fetchUserProfile token env
     | None =>
         storedUser <- localStorage_getItem "auth_user" ;;
         match storedUser, user0 with
         | Some text, None =>
             if truthy text then
               match JSON_parse text with
               | Some parsed => setUser parsed
               | None => localStorage_removeItem "auth_user"
               end
             else ret tt
         | _, _ => ret tt
         end
     end)
    (λ _, console_error "Failed to refresh user:").

End WithJson.
End V2.

(** ** Third revision ([useAuth.tsx], lines 818-1105)

    [register] and [updateUser] are those of [V1]. *)

Module V3.
Section WithJson.
Context `{Json}.

Definition fetchUserProfile (token : string) (env : Env) : M unit :=
  user0 <- gets user ;;
  try_catch
    (userResponse <- await (GetUser (Some token)) (getUser_o env) ;;
     match u_user userResponse with
     | Some authUser =>
         q <- await (SelectUser (su_id authUser)) (select_o env) ;;
         match error q with
         | Some _ =>
             console_error "Failed to fetch user profile:" ;;
             match user0 with
             | None => setUser None
             | Some _ => ret tt
             end
         | None => V1.store_profile (data q)
         end
     | None => ret tt
     end)
    (λ _, console_error "Failed to fetch user profile:").

(** [login] of this revision has type [Promise<void>]. *)
Definition login (email password : string) (env : Env) : M unit :=
  try_finally
    (try_catch
       (setIsLoading true ;;
        response <- ApiClient.login email password env ;;
        console_log "Login response:" ;;
        match response with
        | Some response =>
            match r_user response, r_session response with
            | None, None =>
                toast_error "Login failed: No user or session returned" ;;
                setUser None ;;
                localStorage_removeItem "auth_user"
            | u, session =>
                match session with
                | Some sess => V1.install_session sess env
                | None => ret tt
                end ;;
                match u with
                | Some u =>
                    V1.store_profile (Some u) ;;
                    toast_success "Logged in successfully!"
                | None =>
                    toast_error "Login failed: No user returned" ;;
                    setUser None ;;
                    localStorage_removeItem "auth_user"
                end
            end
        | None =>
            toast_error "Login failed: No user or session returned" ;;
            setUser None ;;
            localStorage_removeItem "auth_user"
        end)
       (λ e, console_error "Login error:" ;;
             toast_error (message_or_falsy "Login failed" e) ;;
             setUser None ;;
             localStorage_removeItem "auth_user" ;;
             throw e))
    (setIsLoading false).

Definition sign_out_best_effort (env : Env) : M unit :=
  try_catch
    (signOutResult <- await SignOut (signOut_o env) ;;
     console_log "Logout: after supabase.auth.signOut" ;;
     match signOutResult with
     | Some _ => console_warn "Supabase logout failed:"
     | None => console_log "Supabase signOut succeeded"
     end)
    (λ _, console_warn "Supabase logout threw error:").

(** [logout] (lines 996-1039); [fault] as in [V1.logout]. *)
Definition logout (env : Env) (fault : option (nat * JsError)) : M unit :=
  try_catch
    (block fault
       [ console_log "Logout: starting";
         console_log "Logout: before supabase.auth.signOut";
         sign_out_best_effort env;
         localStorage_removeItem "auth_user";
         setUser None;
         localStorage_removeItem "supabase.auth.token";
         sessionStorage_clear;
         console_log "Logout: cleared localStorage, setUser(null)";
         toast_success "Logged out successfully";
         effect (SetTimeout 500) ])
    (λ _, console_error "Logout error:" ;;
          localStorage_removeItem "auth_user" ;;
          setUser None ;;
          toast_success "Logged out" ;;
          effect (SetTimeout 500)).

Definition refreshUser (env : Env) : M unit :=
  user0 <- gets user ;;
  try_catch
    (session <- await GetSession (getSession_o env) ;;
     match V1.session_token session with
     | Some token => fetchUserProfile token env
     | None =>
         storedUser <- localStorage_getItem "auth_user" ;;
         match storedUser, user0 with
         | Some text, None =>
             if truthy text then
               match JSON_parse text with
               | Some parsed => setUser parsed
               | None => localStorage_removeItem "auth_user"
               end
             else ret tt
         | _, _ => ret tt
         end
     end)
    (λ _, console_error "Failed to refresh user:").

End WithJson.
End V3.

(** ** The mock image search (Express router, [POST /image]) *)

Module ImageSearch.

Record Product := {
  p_id : string; p_name : string; p_description : string; p_price : string;
  p_media_urls : list string; p_influencer : option string  (* users?.name *)
}.

Inductive Source := internal | external.

Record SearchResult := {
  id : string; title : string; price : string; image : string;
  source : Source; url : option string;
  similarity : option Q;
  description : string; influencer : option string
}.

Record UploadedFile := { originalname : string; size : nat }.

(** [{ data, error }] of the posts query *)
Record DbAnswer := { db_data : option (list Product); db_error : option string }.

Record SearchBody := {
  success : bool;
  results : list SearchResult;
  totalResults : nat;
  processingTime : string
}.

Inductive Response :=
| Status400 (error code : string)
| Status200 (body : SearchBody)
| Status500 (error code details : string).

Definition externalResults : list SearchResult :=
  [ {| id := "ext-1"; title := "Similar Product - Amazon"; price := "₹15,999";
       image := "https://images.unsplash.com/photo-1484704849700-f032a568e944?ixlib=rb-4.0.3&auto=format&fit=crop&w=500&q=80";
       source := external; url := Some "https://amazon.in";
       similarity := Some 0.92%Q;
       description := "Similar product found on Amazon"; influencer := None |};
    {| id := "ext-2"; title := "Related Item - Flipkart"; price := "₹18,499";
       image := "https://images.unsplash.com/photo-1583394838336-acd977736f90?ixlib=rb-4.0.3&auto=format&fit=crop&w=500&q=80";
       source := external; url := Some "https://flipkart.com";
       similarity := Some 0.87%Q;
       description := "Related product available on Flipkart"; influencer := None |} ].

(** [product.media_urls?.[0] || ''] *)
Definition first_image (p : Product) : string :=
  match p_media_urls p with
  | u :: _ => u
  | [] => EmptyString
  end.

(** One internal result; [score] is the number the expression
    [Math.random() * 0.3 + 0.7] evaluated to for it. *)
Definition internalResult (score : Q) (p : Product) : SearchResult :=
  {| id := p_id p; title := p_name p; price := p_price p; image := first_image p;
     source := internal; url := None;
     similarity := Some score;
     description := p_description p; influencer := p_influencer p |}.

(** [(internalProducts || []).map(...)]; [random i] is the mock score of
    the [i]-th product. *)
Definition internalResults (random : nat → Q) (products : option (list Product))
  : list SearchResult :=
  imap (λ i p, internalResult (random i) p) (default [] products).

(** [x.similarity || 0] *)
Definition similarity_or_0 (x : SearchResult) : Q := default 0%Q (similarity x).

(** The comparator [(a, b) => (b.similarity || 0) - (a.similarity || 0)]
    is not positive: [a] may stay before [b]. *)
Definition not_after (a b : SearchResult) : bool :=
  Qle_bool (similarity_or_0 b) (similarity_or_0 a).

(** [Array.prototype.sort] with that comparator: a stable sort. *)
Fixpoint insert_result (x : SearchResult) (l : list SearchResult) : list SearchResult :=
  match l with
  | [] => [x]
  | y :: rest => if not_after x y then x :: y :: rest else y :: insert_result x rest
  end.

Definition sort_by_similarity (l : list SearchResult) : list SearchResult :=
  foldr insert_result [] l.

(** [.slice(0, 20)] *)
Definition slice_0_20 (l : list SearchResult) : list SearchResult := take 20 l.

Definition allResults (random : nat → Q) (products : option (list Product))
  : list SearchResult :=
  slice_0_20 (sort_by_similarity (internalResults random products ++ externalResults)).

(** The handler, from the uploaded file, the answer of the posts query
    and the mock scores to the response it sends.  A similarity is the
    rational number its double denotes, and the sign of the comparator's
    difference is the order of the two numbers. *)
Definition image_search (file : option UploadedFile) (db : Outcome DbAnswer)
    (random : nat → Q) : Response :=
  match file with
  | None => Status400 "No image file provided" "NO_IMAGE_FILE"
  | Some _ =>
      match db with
      | Rejects e =>
          Status500 "Image search failed" "IMAGE_SEARCH_ERROR"
                    (message_or EmptyString e)
      | Resolves answer =>
          let all := allResults random (db_data answer) in
          Status200 {| success := true;
                       results := all;
                       totalResults := length all;
                       processingTime := "1.2s" |}
      end
  end.

End ImageSearch.

(** ** Concurrent callers of [login]

    Callers hold the promise [login] handed them; a promise is resolved
    when the task that owns it settles. *)

Record Machine := {
  store : State;
  resolved : gmap nat bool;      (* promise ↦ the boolean it resolved to *)
  returned : list (nat * nat)    (* caller, promise handed to it; latest first *)
}.

Inductive Event :=
| Call (caller : nat) (email password : string)
| Settle (env : Env).

Definition is_login_request (e : Effect) : bool :=
  match e with
  | Fetch endpoint _ => bool_decide (endpoint = "/auth/login")
  | _ => false
  end.

(** Number of login requests sent to the backend. *)
Definition login_requests (l : list Effect) : nat :=
  length (List.filter is_login_request l).

(** ** Posts of the backend-API client ([src/lib/api.ts], lines 124-233) *)

Module PostsApi.

(** [params] of [getPosts]; a number is an integer here. *)
Record PageParams := {
  page : option Z; limit : option Z;
  category : option string; influencer_id : option string
}.

(** [x || d] on a number that may be missing: 0 is falsy. *)
Definition number_or (x : option Z) (d : Z) : Z :=
  match x with
  | Some v => if decide (v = 0)%Z then d else v
  | None => d
  end.

(** [query.range(from, to)], asked for when [params?.limit] is truthy. *)
Definition page_range (page limit : option Z) : option (Z * Z) :=
  match limit with
  | Some l =>
      if decide (l = 0)%Z then None
      else let from := ((number_or page 1 - 1) * l)%Z in
           Some (from, from + l - 1)%Z
  | None => None
  end.

(** What [getPosts] asks of the posts table beyond the published filter. *)
Record PostsQuery := { q_range : option (Z * Z); q_author_id : option string }.

Definition getPosts_query (params : option PageParams) : PostsQuery :=
  {| q_range := page_range (params ≫= page) (params ≫= limit);
     q_author_id := match params ≫= influencer_id with
                    | Some a => if truthy a then Some a else None
                    | None => None
                    end |}.

(** [{ data, error }] of a query for rows *)
Record RowsAnswer := { rows : option (list JsObject); rows_error : option string }.

Record Pagination := { pg_page : Z; pg_limit : Z; hasMore : bool }.

Record PostsPage := { posts : option (list JsObject); pagination : Pagination }.

(** [(data?.length || 0) === (params?.limit || 20)] and its siblings *)
Definition paginate (page limit : option Z) (data : option (list JsObject)) : Pagination :=
  {| pg_page := number_or page 1%Z;
     pg_limit := number_or limit 20%Z;
     hasMore := bool_decide (Z.of_nat (length (default [] data)) = number_or limit 20%Z) |}.

Definition getPosts (params : option PageParams) (answer : Outcome RowsAnswer)
  : Result PostsPage :=
  match answer with
  | Rejects e => Threw e
  | Resolves a =>
      match rows_error a with
      | Some msg => Threw (Error msg)
      | None => Ok {| posts := rows a;
                      pagination := paginate (params ≫= page) (params ≫= limit) (rows a) |}
      end
  end.

(** A call [createPost] makes. *)
Inductive Call :=
| AuthGetUser
| InsertPost (row : JsObject).

(** The row [createPost] inserts: [{ ...postData, author_id: user.id, is_published: true }] *)
Definition post_row (postData : JsObject) (author : string) : JsObject :=
  <["is_published" := JBool true]> (<["author_id" := JStr author]> postData).

(** [createPost]: the calls it makes and what it returns or throws. *)
Definition createPost (postData : JsObject) (whoami : Outcome UserResponse)
    (inserted : Outcome QueryResult) : list Call * Result (option JsObject) :=
  match whoami with
  | Rejects e => ([AuthGetUser], Threw e)
  | Resolves r =>
      match u_user r with
      | None => ([AuthGetUser], Threw (Error "Not authenticated"))
      | Some su =>
          let calls := [AuthGetUser; InsertPost (post_row postData (su_id su))] in
          match inserted with
          | Rejects e => (calls, Threw e)
          | Resolves q =>
              match error q with
              | Some msg => (calls, Threw (Error msg))
              | None => (calls, Ok (data q))
              end
          end
      end
  end.

End PostsApi.

(** ** Recommendations of the personalized feed ([getPersonalizedRecommendations]) *)

Module Feed.

Record Influencer := { i_name : string; i_category : string; i_reason : string }.

Record Product := {
  p_name : string; p_influencer : string;
  skinTones : list string; recommendedHeights : list Z
}.

(** The profile fields the function reads; [None] is [null] or [undefined]. *)
Record Profile := {
  color_season : option string; body_type : option string;
  style_preference : option string
}.

(** [const height: number | undefined = undefined] *)
Definition height : option Z := None.

(** [user?.color_season ?? "all"] *)
Definition skinTone (user : option Profile) : string :=
  default "all" (user ≫= color_season).

Definition influencers (user : option Profile) : list Influencer :=
  [ {| i_name := "Sarah Johnson"; i_category := "Fashion";
       i_reason := "Great for "
                   +:+ (if truthy (skinTone user) then skinTone user else "all")
                   +:+ " skin tones" |};
    {| i_name := "Mike Chen"; i_category := "Fitness";
       i_reason := match height with
                   | Some h => if decide (h ≠ 0 ∧ 175 < h)%Z then "Tall-fit specialist"
                               else "Fitness for all heights"
                   | None => "Fitness for all heights"
                   end |};
    {| i_name := "Emma Davis"; i_category := "Beauty";
       i_reason := "Popular in your area" |} ].

Definition products : list Product :=
  [ {| p_name := "Wireless Earbuds Pro"; p_influencer := "Sarah Johnson";
       skinTones := ["fair"; "medium"; "olive"; "dark"];
       recommendedHeights := [150; 180]%Z |};
    {| p_name := "Organic Face Serum"; p_influencer := "Emma Davis";
       skinTones := ["light"; "medium"; "olive"];
       recommendedHeights := [] |};
    {| p_name := "TallFit Jeans"; p_influencer := "Mike Chen";
       skinTones := ["all"];
       recommendedHeights := [175; 190]%Z |} ].

Definition toneOk (tone : string) (p : Product) : bool :=
  bool_decide (tone ∈ skinTones p) || bool_decide ("all" ∈ skinTones p).

Definition heightOk (p : Product) : bool :=
  match recommendedHeights p with
  | [] => true
  | hs => match height with
          | Some h => existsb (λ x, bool_decide (Z.abs (h - x) < 8)%Z) hs
          | None => false
          end
  end.

Definition matchedProducts (user : option Profile) : list Product :=
  List.filter (λ p, toneOk (skinTone user) p && heightOk p) products.

Definition getPersonalizedRecommendations (user : option Profile)
  : list Influencer * list Product :=
  (influencers user, matchedProducts user).

(** The values the color-season select of the profile form offers. *)
Definition colorSeasonOptions : list string :=
  [EmptyString; "spring"; "summer"; "autumn"; "winter"].

End Feed.

(** ** Callers of the store: the login form and the profile page *)

Module Pages.
Section WithJson.
Context `{Json}.

(** [LoginForm.handleSubmit]: whether the form was reset and [onSuccess]
    called. *)
Definition LoginForm_handleSubmit (email password : string) (env : Env) : M bool :=
  ok <- V1.login email password env ;;
  if ok : bool then ret true else ret false.





(** The file picked for the avatar: its size in bytes, its MIME type,
    and the data URL the reader produces for it. *)
Record PickedFile := { file_size : Z; file_type : string; file_dataUrl : string }.

(** [Profile.handleFileChange] with the [onload] callback of its reader. *)
Definition handleFileChange (file : option PickedFile) (env : Env) : M unit :=
  match file with
  | None => ret tt
  | Some f =>
      if decide (5 * 1024 * 1024 < file_size f)%Z then
        toast_error "Image size should be less than 5MB"
      else if negb (startsWith "image/" (file_type f)) then
        toast_error "Only image files are allowed"
      else
        try_catch
          (V1.updateUser {[ "avatar_url" := JStr (file_dataUrl f) ]} env ;;
           toast_success "Profile picture updated")
          (λ _, toast_error "Failed to update profile picture")
  end.

End WithJson.
End Pages.

(** ** A codec to evaluate examples with

    [JSON.stringify] and [JSON.parse] are the runtime's.  To run the store
    on concrete inputs the examples below use this stand-in: it prints flat
    objects and reads back the texts of a given list of profiles. *)

Definition dquote : string := String (Ascii.ascii_of_nat 34) EmptyString.

Definition json_of_val (v : jsval) : string :=
  match v with
  | JStr s => dquote +:+ s +:+ dquote
  | JBool true => "true"
  | JBool false => "false"
  | JNull => "null"
  end.

Definition json_of_object (o : JsObject) : string :=
  "{" +:+ String.concat ","
            (map (λ kv, dquote +:+ kv.1 +:+ dquote +:+ ":" +:+ json_of_val kv.2)
                 (map_to_list o))
      +:+ "}".

Definition demo_stringify (v : option AuthUser) : string :=
  match v with
  | Some o => json_of_object o
  | None => "null"
  end.

Definition demo_parse (known : list AuthUser) (text : string) : option (option AuthUser) :=
  if decide (text = "null") then Some None
  else Some <$> List.find (λ u, bool_decide (json_of_object u = text)) known.

Definition demo_json (known : list AuthUser) : Json :=
  {| JSON_stringify := demo_stringify; JSON_parse := demo_parse known |}.

Definition alice : AuthUser :=
  {[ "id" := JStr "u1"; "name" := JStr "A"; "email" := JStr "a@x.com" ]}.

Definition demo : Json := demo_json [alice].

Definition session_t : Session := {| access_token := "t"; refresh_token := "r" |}.

(** The backend accepts the credentials and answers with the profile of
    [alice] and no session; the hosted service knows no session. *)
Definition env_accepts : Env :=
  {| fetch_o := Resolves (Some {| r_user := Some alice; r_session := None;
                                  r_tokens := None |});
     getSession_o := Resolves None;
     getUser_o := Resolves {| u_user := None; u_error := Some "no session" |};
     setSession_o := Resolves None;
     signOut_o := Resolves None;
     select_o := Resolves {| data := None; error := Some "PGRST116" |};
     insert_o := Resolves {| data := None; error := Some "denied" |};
     update_o := Resolves {| data := Some (<["bio" := JStr "x"]>
                                            (<["updated_at" := JStr "2025-01-01T00:00:05.000Z"]>
                                               alice));
                             error := None |};
     now := "2025-01-01T00:00:00.000Z" |}.

(** The backend refuses the credentials. *)
Definition env_refuses : Env :=
  {| fetch_o := Rejects (Error "Invalid credentials");
     getSession_o := Resolves None;
     getUser_o := Resolves {| u_user := None; u_error := Some "no session" |};
     setSession_o := Resolves None;
     signOut_o := Resolves None;
     select_o := Resolves {| data := None; error := Some "PGRST116" |};
     insert_o := Resolves {| data := None; error := Some "denied" |};
     update_o := Resolves {| data := None; error := Some "denied" |};
     now := "2025-01-01T00:00:00.000Z" |}.

(** A session exists, and the hosted service cannot be reached for the
    profile. *)
Definition env_fetch_down : Env :=
  {| fetch_o := Rejects (Error "Failed to fetch");
     getSession_o := Resolves (Some session_t);
     getUser_o := Rejects (Error "Failed to fetch");
     setSession_o := Rejects (Error "Failed to fetch");
     signOut_o := Rejects (Error "Failed to fetch");
     select_o := Rejects (Error "Failed to fetch");
     insert_o := Rejects (Error "Failed to fetch");
     update_o := Rejects (Error "Failed to fetch");
     now := "2025-01-01T00:00:00.000Z" |}.

(** [alice] is logged in; the hosted client keeps its session under keys
    starting with ['sb-']. *)
Definition logged_in : State :=
  mkState (Some alice) false None 0
          {[ "auth_user" := demo_stringify (Some alice);
             "sb-proj-auth-token" := "tok" ]}
          {[ "sb-proj-code-verifier" := "v" ]}
          [].

(** Nobody is logged in, the profile of [alice] is still cached. *)
Definition cached_only : State :=
  mkState None false None 0 {[ "auth_user" := demo_stringify (Some alice) ]} ∅ [].

Definition shoe : ImageSearch.Product :=
  {| ImageSearch.p_id := "p1"; ImageSearch.p_name := "Shoe";
     ImageSearch.p_description := "A shoe"; ImageSearch.p_price := "₹999";
     ImageSearch.p_media_urls := ["https://cdn.example/shoe.png"];
     ImageSearch.p_influencer := Some "Sarah" |}.

(** The request to the backend runs into the time-out of [_fetch]. *)
Definition env_timeout : Env :=
  {| fetch_o := Rejects (AbortError "The operation was aborted.");
     getSession_o := Resolves None;
     getUser_o := Resolves {| u_user := None; u_error := Some "no session" |};
     setSession_o := Resolves None;
     signOut_o := Resolves None;
     select_o := Resolves {| data := None; error := Some "PGRST116" |};
     insert_o := Resolves {| data := None; error := Some "denied" |};
     update_o := Resolves {| data := None; error := Some "denied" |};
     now := "2025-01-01T00:00:00.000Z" |}.

(** The backend answers with neither a user nor a session. *)
Definition env_no_user : Env :=
  {| fetch_o := Resolves (Some {| r_user := None; r_session := None;
                                  r_tokens := None |});
     getSession_o := Resolves None;
     getUser_o := Resolves {| u_user := None; u_error := Some "no session" |};
     setSession_o := Resolves None;
     signOut_o := Resolves None;
     select_o := Resolves {| data := None; error := Some "PGRST116" |};
     insert_o := Resolves {| data := None; error := Some "denied" |};
     update_o := Resolves {| data := None; error := Some "denied" |};
     now := "2025-01-01T00:00:00.000Z" |}.

(** The backend accepts the credentials and answers with tokens, which
    the hosted client fails to install. *)
Definition env_tokens_rejected : Env :=
  {| fetch_o := Resolves (Some {| r_user := Some alice; r_session := None;
                                  r_tokens := Some ("t", "r") |});
     getSession_o := Resolves None;
     getUser_o := Resolves {| u_user := None; u_error := Some "no session" |};
     setSession_o := Rejects (Error "Failed to fetch");
     signOut_o := Resolves None;
     select_o := Resolves {| data := None; error := Some "PGRST116" |};
     insert_o := Resolves {| data := None; error := Some "denied" |};
     update_o := Resolves {| data := None; error := Some "denied" |};
     now := "2025-01-01T00:00:00.000Z" |}.

(** [bob] has signed up with the hosted service and has no row in the
    users table yet. *)
Definition bob : SupaUser :=
  {| su_id := "u2"; su_email := "b@x.com"; su_name := None |}.

Definition bob_row : AuthUser :=
  {[ "id" := JStr "u2"; "name" := JStr "b@x.com"; "email" := JStr "b@x.com" ]}.

Definition env_first_login : Env :=
  {| fetch_o := Rejects (Error "Failed to fetch");
     getSession_o := Resolves (Some session_t);
     getUser_o := Resolves {| u_user := Some bob; u_error := None |};
     setSession_o := Resolves None;
     signOut_o := Resolves None;
     select_o := Resolves {| data := None; error := Some "PGRST116" |};
     insert_o := Resolves {| data := Some bob_row; error := None |};
     update_o := Resolves {| data := None; error := Some "denied" |};
     now := "2025-01-01T00:00:00.000Z" |}.

(** Nobody is logged in, and the empty text is cached under ['auth_user']. *)
Definition cached_empty : State :=
  mkState None false None 0 {[ "auth_user" := EmptyString ]} ∅ [].

Definition look_png : ImageSearch.UploadedFile :=
  {| ImageSearch.originalname := "look.png"; ImageSearch.size := 1024 |}.

Definition one_shoe : ImageSearch.DbAnswer :=
  {| ImageSearch.db_data := Some [shoe]; ImageSearch.db_error := None |}.

(** * Vocabulary of the properties *)

(** No key of the hosted-session prefix is left in a storage. *)
Definition no_session_keys (m : gmap string string) : Prop :=
  ∀ k, startsWith "sb-" k = true → m !! k = None.

Section Vocabulary.
Context `{Json}.

(** What [updateUser] sends: the caller's fields, with [updated_at]
    set to the current time. *)
Definition sent_payload (payload : JsObject) (env : Env) : JsObject :=
  <["updated_at" := JStr (now env)]> payload.

Definition session_warning : string :=
  "Session setting failed, but continuing with manual auth:".

(** The session check of [refreshUser] fails. *)
Definition SessionCheckFailure (env : Env) : Prop :=
  ∃ e, getSession_o env = Rejects e.

(** A select that did not deliver a profile. *)
Definition no_profile (q : QueryResult) : Prop :=
  is_Some (error q) ∨ data q = None.

(** The session check succeeds with a token and the profile fetch that
    follows fails: a call rejects, or the hosted service answers with no
    user, or neither the select nor the insert delivers a profile. *)
Inductive ProfileFetchFailure (env : Env) : Prop :=
| getUser_rejects session token e :
    getSession_o env = Resolves session →
    V1.session_token session = Some token →
    getUser_o env = Rejects e →
    ProfileFetchFailure env
| getUser_no_user session token r :
    getSession_o env = Resolves session →
    V1.session_token session = Some token →
    getUser_o env = Resolves r → u_user r = None →
    ProfileFetchFailure env
| select_rejects session token r su e :
    getSession_o env = Resolves session →
    V1.session_token session = Some token →
    getUser_o env = Resolves r → u_user r = Some su →
    select_o env = Rejects e →
    ProfileFetchFailure env
| insert_rejects session token r su q e :
    getSession_o env = Resolves session →
    V1.session_token session = Some token →
    getUser_o env = Resolves r → u_user r = Some su →
    select_o env = Resolves q → no_profile q →
    insert_o env = Rejects e →
    ProfileFetchFailure env
| insert_no_profile session token r su q q' :
    getSession_o env = Resolves session →
    V1.session_token session = Some token →
    getUser_o env = Resolves r → u_user r = Some su →
    select_o env = Resolves q → no_profile q →
    insert_o env = Resolves q' → no_profile q' →
    ProfileFetchFailure env.

(** The operations of the first revision.  A login is its call and,
    later, the completion of the promise the call started, so that other
    operations may run in between. *)
Inductive Op :=
| OpCheckAuth
| OpAuthStateChange (event : V1.AuthChangeEvent) (session : option Session)
| OpFetchUserProfile (token : string)
| OpRegister (d : RegisterData)
| OpLoginCall (email password : string)
| OpLoginTask
| OpLogout (fault : option (nat * JsError))
| OpLogoutTimer
| OpUpdateUser (payload : JsObject)
| OpRefreshUser.

Definition run_op (op : Op) (env : Env) : M unit :=
  match op with
  | OpCheckAuth => V1.checkAuth env
  | OpAuthStateChange event session => V1.onAuthStateChange event session env
  | OpFetchUserProfile token => V1.fetchUserProfile token env
  | OpRegister d => V1.register d env
  | OpLoginCall email password => V1.login_call email password ;; ret tt
  | OpLoginTask =>
      pending <- gets loginPromiseRef ;;
      match pending with
      | Some _ => V1.login_task env ;; ret tt
      | None => ret tt
      end
  | OpLogout fault => V1.logout env fault
  | OpLogoutTimer => V1.logout_timer env
  | OpUpdateUser payload => V1.updateUser payload env
  | OpRefreshUser => V1.refreshUser env
  end.

Definition exec (step : Op * Env) (s : State) : State :=
  (run_op step.1 step.2 s).2.

Definition run_trace (trace : list (Op * Env)) (s : State) : State :=
  foldl (λ s step, exec step s) s trace.

(** The text under ['auth_user'] is a serialized copy of the profile
    [u]: what [JSON.stringify] prints for [u], or a text [JSON.parse]
    reads as [u]. *)
Definition serialized (text : string) (u : AuthUser) : Prop :=
  text = JSON_stringify (Some u) ∨ JSON_parse text = Some (Some u).

Definition cached_profile (s : State) : Prop :=
  ∀ u, user s = Some u →
       ∃ text, localStorage s !! "auth_user" = Some text ∧ serialized text u.

(** What an operation that sets the user does to the pair of copies:
    nothing, or the user is null, or the user is a profile and the cache is
    its [JSON.stringify]. *)
Definition written_together (s s' : State) : Prop :=
  (user s' = user s ∧ localStorage s' = localStorage s)
  ∨ user s' = None
  ∨ ∃ p, user s' = Some p
         ∧ localStorage s' !! "auth_user" = Some (JSON_stringify (Some p)).

(** One event.  A call hands the caller the promise [login] returns.  A
    settlement runs the task of the in-flight promise to its end and
    resolves that promise; [loginPromiseRef] changes only in the [finally]
    of the task, so a call that arrives while the task is suspended finds
    the ref as it was before the settlement. *)
Definition step (ev : Event) (m : Machine) : Machine :=
  match ev with
  | Call caller email password =>
      match V1.login_call email password (store m) with
      | (Ok p, s') =>
          {| store := s'; resolved := resolved m; returned := (caller, p) :: returned m |}
      | (Threw _, s') =>
          {| store := s'; resolved := resolved m; returned := returned m |}
      end
  | Settle env =>
      match loginPromiseRef (store m) with
      | Some p =>
          match V1.login_task env (store m) with
          | (Ok b, s') =>
              {| store := s'; resolved := <[p := b]> (resolved m);
                 returned := returned m |}
          | (Threw _, s') =>
              {| store := s'; resolved := resolved m; returned := returned m |}
          end
      | None => m
      end
  end.

Definition run (events : list Event) (m : Machine) : Machine :=
  foldl (λ m ev, step ev m) m events.

(** Callers, each with the credentials it passes, calling in turn. *)
Definition calls (callers : list (nat * string * string)) : list Event :=
  map (λ c, Call c.1.1 c.1.2 c.2) callers.

(** No promise handed out yet. *)
Definition idle (s : State) : Machine :=
  {| store := s; resolved := ∅; returned := [] |}.

(** Number of page reloads scheduled with [setTimeout]. *)
Definition reloads_scheduled (l : list Effect) : nat :=
  length (List.filter (λ e, match e with SetTimeout _ => true | _ => false end) l).

(** An effect that is neither a timer, a reload nor a toast. *)
Definition silent (e : Effect) : Prop :=
  match e with
  | SetTimeout _ | Reload | ToastSuccess _ | ToastError _ => False
  | _ => True
  end.


(** What [_fetch] throws for a rejection of [fetch]. *)
Definition fetch_error (e : JsError) : JsError :=
  match e with
  | AbortError _ => Error "Request timed out. Please try again."
  | _ => e
  end.


(** The update of the users table failed: the call rejected, or it
    answered with an error. *)
Definition update_failure (env : Env) (thrown : JsError) : Prop :=
  update_o env = Rejects thrown
  ∨ (thrown = Error "Failed to update profile"
     ∧ ∃ answer msg, update_o env = Resolves {| data := answer; error := Some msg |}).

End Vocabulary.

(** [a] may stand before [b]: its similarity is not the smaller one. *)
Definition descending (a b : ImageSearch.SearchResult) : Prop :=
  (ImageSearch.similarity_or_0 b <= ImageSearch.similarity_or_0 a)%Q.

(** The results whose similarity is [q], in the order they stand in. *)
Definition ties (q : Q) (l : list ImageSearch.SearchResult)
  : list ImageSearch.SearchResult :=
  List.filter (λ x, Qeq_bool (ImageSearch.similarity_or_0 x) q) l.

(** The one product of the feed without recommended heights. *)
Definition serum : Feed.Product :=
  {| Feed.p_name := "Organic Face Serum"; Feed.p_influencer := "Emma Davis";
     Feed.skinTones := ["light"; "medium"; "olive"];
     Feed.recommendedHeights := [] |}.


(** * Properties *)

(** Running a computation: name the fields of the store, unfold the monad
    and the field accesses, keep maps and lists folded. *)
Ltac name_fields :=
  repeat match goal with
         | s : State |- _ => destruct s
         end;
  cbn [user isLoading loginPromiseRef promiseCount localStorage sessionStorage
       effects] in *.

Ltac run_js :=
  name_fields;
  cbv [bind ret throw try_catch try_finally gets modify when effect await
       setUser setIsLoading setLoginPromiseRef with_localStorage with_sessionStorage
       localStorage_setItem localStorage_removeItem localStorage_getItem
       sessionStorage_clear console_log console_warn console_error
       toast_success toast_error V1.store_profile
       V1.new_promise V1.window_location_reload
       ApiClient.fetch_request ApiClient.fetch_response ApiClient._fetch
       ApiClient.login_request ApiClient.login_response ApiClient.login
       ApiClient.register ApiClient.isAuthWithTokens
       user isLoading loginPromiseRef promiseCount localStorage sessionStorage
       effects fst snd mbind option_bind].

(** ** Storage *)

Lemma foldl_remove_lookup (keys : list string) (m : gmap string string) (k : string) :
  foldl (λ acc key, if startsWith "sb-" key then delete key acc else acc) m keys !! k
  = if bool_decide (k ∈ keys) && startsWith "sb-" k then None else m !! k.
Proof.
  revert m. induction keys as [|key keys IH]; intros m; simpl.
  - done.
  - rewrite IH. destruct (decide (k = key)) as [->|Hne].
    + rewrite (bool_decide_eq_true_2 (key ∈ key :: keys)) by left.
      destruct (startsWith "sb-" key) eqn:Hp; simpl.
      * rewrite lookup_delete_eq. by destruct (bool_decide _).
      * by rewrite andb_false_r.
    + assert (bool_decide (k ∈ key :: keys) = bool_decide (k ∈ keys)) as ->.
      { apply bool_decide_ext. rewrite elem_of_cons.
        split; [intros [?|?]; [congruence|done]|by right]. }
      destruct (bool_decide (k ∈ keys) && startsWith "sb-" k); [done|].
      destruct (startsWith "sb-" key); [by rewrite lookup_delete_ne|done].
Qed.

Lemma remove_sb_keys_lookup (m : gmap string string) (k : string) :
  remove_sb_keys m !! k = if startsWith "sb-" k then None else m !! k.
Proof.
  unfold remove_sb_keys. rewrite foldl_remove_lookup.
  destruct (startsWith "sb-" k); [|by rewrite andb_false_r].
  rewrite andb_true_r. case_bool_decide as Hin; [done|].
  destruct (m !! k) as [v|] eqn:Hk; [|done].
  exfalso. apply Hin. unfold Object_keys. apply list_elem_of_fmap.
  exists (k, v). split; [done|]. by apply elem_of_map_to_list.
Qed.

Lemma no_session_keys_remove (m : gmap string string) : no_session_keys (remove_sb_keys m).
Proof. intros k Hk. by rewrite remove_sb_keys_lookup, Hk. Qed.

Lemma no_session_keys_empty : no_session_keys ∅.
Proof. by intros k _. Qed.

Lemma no_session_keys_delete (m : gmap string string) (k : string) :
  no_session_keys m → no_session_keys (delete k m).
Proof.
  intros Hm k' Hk'. destruct (decide (k = k')) as [->|Hne].
  - apply lookup_delete_eq.
  - rewrite lookup_delete_ne by done. by apply Hm.
Qed.

Lemma remove_sb_keys_auth_user (m : gmap string string) :
  m !! "auth_user" = None → remove_sb_keys m !! "auth_user" = None.
Proof. intros Hm. by rewrite remove_sb_keys_lookup. Qed.

Section Properties.
Context `{Json}.

(** ** [updateUser] *)

(** C6. Called while no user is in memory, [updateUser] throws
    ['No user logged in']; nothing is sent to the users table, and the
    in-memory user and both storages are as they were: the only trace is
    the console line and the toast of the [catch] block. *)
Theorem updateUser_without_user (payload : JsObject) (env : Env) (s : State) :
  user s = None →
  ∃ s', V1.updateUser payload env s = (Threw (Error "No user logged in"), s')
        ∧ user s' = None
        ∧ localStorage s' = localStorage s
        ∧ sessionStorage s' = sessionStorage s
        ∧ effects s' = effects s ++ [ConsoleError "Update error:";
                                     ToastError "No user logged in"]
        ∧ ∀ p k, UpdateUser p k ∈ effects s' → UpdateUser p k ∈ effects s.
Proof.
  intros Hu. unfold V1.updateUser. run_js. rewrite Hu. run_js.
  eexists; split; [reflexivity|]. cbn. rewrite <- app_assoc. cbn.
  repeat split; try done.
  intros p k Hin. apply elem_of_app in Hin as [Hin|Hin]; [done|].
  repeat (apply elem_of_cons in Hin as [Hin|Hin]; [discriminate|]).
  by apply elem_of_nil in Hin.
Qed.





(** ** [register] *)

Lemma install_session_total (sess : Session) (env : Env) (s : State) :
  ∃ log, V1.install_session sess env s
         = (Ok tt, mkState (user s) (isLoading s) (loginPromiseRef s) (promiseCount s)
                           (localStorage s) (sessionStorage s) (effects s ++ log))
         ∧ (log = [SetSession (Some sess)]
            ∨ log = [SetSession (Some sess); ConsoleWarn session_warning]).
Proof.
  unfold V1.install_session. run_js.
  destruct (setSession_o env) as [e|[msg|]]; run_js;
    eexists; (split; [try rewrite <- app_assoc; reflexivity|]); cbn; auto.
Qed.


(** ** [refreshUser] *)

(** C8. With no hosted session, a non-empty text cached under
    ['auth_user'] and no user in memory, [refreshUser] completes and sets
    the in-memory user to what [JSON.parse] makes of the text, leaving the
    cache as it is; when the text does not parse, the entry is removed and
    the user stays null. *)
Theorem refreshUser_restores_cache (env : Env) (s : State)
    (session : option Session) (text : string) :
  getSession_o env = Resolves session →
  V1.session_token session = None →
  localStorage s !! "auth_user" = Some text →
  text ≠ EmptyString →
  user s = None →
  ∃ s', V1.refreshUser env s = (Ok tt, s')
        ∧ match JSON_parse text with
          | Some parsed =>
              user s' = parsed ∧ localStorage s' = localStorage s
          | None =>
              user s' = None
              ∧ localStorage s' = delete "auth_user" (localStorage s)
              ∧ localStorage s' !! "auth_user" = None
          end.
Proof.
  intros Hg Htok Hls Htext Hu. unfold V1.refreshUser. run_js.
  rewrite Hu, Hg. run_js. rewrite Htok. run_js. rewrite Hls.
  unfold truthy. rewrite bool_decide_eq_true_2 by done.
  destruct (JSON_parse text) as [parsed|]; run_js;
    (eexists; split; [reflexivity|]); cbn; repeat split; try done.
  apply lookup_delete_eq.
Qed.

(** ** [login] *)

(** Case analysis on the answers a computation reads. *)
Ltac branch :=
  repeat (run_js;
          match goal with
          | |- context [match ?x with _ => _ end] =>
              lazymatch x with
              | context [match _ with _ => _ end] => fail
              | _ => destruct x eqn:?
              end
          end);
  run_js.

Lemma login_task_outcome (env : Env) (s : State) :
  ∃ b s' log,
    V1.login_task env s = (Ok b, s')
    ∧ loginPromiseRef s' = None
    ∧ isLoading s' = false
    ∧ promiseCount s' = promiseCount s
    ∧ sessionStorage s' = sessionStorage s
    ∧ effects s' = effects s ++ log
    ∧ (∀ e, e ∈ log → ∀ endpoint body, e ≠ Fetch endpoint body)
    ∧ match b with
      | true => ∃ u, user s' = Some u
                     ∧ localStorage s'
                       = <["auth_user" := JSON_stringify (Some u)]> (localStorage s)
      | false => user s' = None
                 ∧ localStorage s' = delete "auth_user" (localStorage s)
      end.
Proof.
  unfold V1.login_task, V1.session_token. branch;
    simplify_eq; eexists _, _, _;
    (split; [reflexivity|]); cbn;
    rewrite <- ?app_assoc; cbn;
    (repeat split; try done);
    try (by eexists);
    intros e0 Hin ?? ->; set_unfold in Hin; destruct_or?; done.
Qed.

Lemma login_call_idle (email password : string) (s : State) :
  loginPromiseRef s = None →
  V1.login_call email password s
  = (Ok (promiseCount s),
     mkState (user s) true (Some (promiseCount s)) (S (promiseCount s))
             (localStorage s) (sessionStorage s)
             (effects s ++ [Fetch "/auth/login" (ApiClient.credentials email password)])).
Proof. intros Hidle. unfold V1.login_call. run_js. rewrite Hidle. by run_js. Qed.

Lemma login_call_in_flight (email password : string) (s : State) (p : nat) :
  loginPromiseRef s = Some p →
  V1.login_call email password s = (Ok p, s).
Proof. intros Hp. unfold V1.login_call. run_js. rewrite Hp. by run_js. Qed.

Lemma login_call_total (email password : string) (s : State) :
  ∃ p s', V1.login_call email password s = (Ok p, s')
          ∧ user s' = user s ∧ localStorage s' = localStorage s.
Proof.
  destruct (loginPromiseRef s) as [p|] eqn:Hp.
  - rewrite (login_call_in_flight _ _ _ p) by done. by eexists _, _.
  - rewrite login_call_idle by done. by eexists _, _.
Qed.

Lemma login_v1_boolean (email password : string) (env : Env) (s : State) :
  ∃ b s', V1.login email password env s = (Ok b, s')
          ∧ (b = false → user s' = None
                         ∧ localStorage s' !! "auth_user" = None
                         ∧ isAuthenticated s' = false)
          ∧ (b = true → ∃ u, user s' = Some u
                             ∧ localStorage s' !! "auth_user"
                               = Some (JSON_stringify (Some u))).
Proof.
  unfold V1.login.
  destruct (login_call_total email password s) as (p & s1 & Hcall & Hu1 & Hl1).
  destruct (login_task_outcome env s1)
    as (b & s' & log & Htask & _ & _ & _ & _ & _ & _ & Hb).
  exists b, s'. unfold bind. rewrite Hcall, Htask. split; [done|].
  split; intros ->.
  - destruct Hb as [Hu ->]. unfold isAuthenticated. rewrite Hu.
    split; [done|]. split; [apply lookup_delete_eq|].
    apply bool_decide_eq_false_2. by intros [? ?].
  - destruct Hb as (u & Hu & ->). exists u. split; [done|]. apply lookup_insert_eq.
Qed.



(** ** [logout] *)

Lemma sign_out_v1_total (env : Env) (s : State) :
  ∃ log, V1.sign_out_best_effort env s
         = (Ok tt, mkState (user s) (isLoading s) (loginPromiseRef s) (promiseCount s)
                           (localStorage s) (sessionStorage s) (effects s ++ log)).
Proof.
  unfold V1.sign_out_best_effort. branch;
    eexists; rewrite <- ?app_assoc; reflexivity.
Qed.

Lemma sign_out_v3_total (env : Env) (s : State) :
  ∃ log, V3.sign_out_best_effort env s
         = (Ok tt, mkState (user s) (isLoading s) (loginPromiseRef s) (promiseCount s)
                           (localStorage s) (sessionStorage s) (effects s ++ log)).
Proof.
  unfold V3.sign_out_best_effort. branch;
    eexists; rewrite <- ?app_assoc; reflexivity.
Qed.

Ltac run_block :=
  cbv [block app V1.clear_storage]; run_js.

Ltac sign_out_step :=
  match goal with
  | |- context [V1.sign_out_best_effort ?env ?s0] =>
      let log := fresh "log" in
      destruct (sign_out_v1_total env s0) as [log ->]
  | |- context [V3.sign_out_best_effort ?env ?s0] =>
      let log := fresh "log" in
      destruct (sign_out_v3_total env s0) as [log ->]
  end.

Lemma auth_user_not_session_key : startsWith "sb-" "auth_user" = false.
Proof. reflexivity. Qed.

Lemma logout_v1_clears (env : Env) (fault : option (nat * JsError)) (s : State) :
  ∃ s', V1.logout env fault s = (Ok tt, s')
        ∧ no_session_keys (localStorage s')
        ∧ no_session_keys (sessionStorage s')
        ∧ localStorage s' !! "auth_user" = None
        ∧ user s' = None
        ∧ isAuthenticated s' = false.
Proof.
  unfold V1.logout.
  destruct fault as [[k e]|]; [do 10 (try destruct k as [|k])|];
    run_block; try sign_out_step; run_block;
    (eexists; split; [reflexivity|]); cbn;
    (split; [apply no_session_keys_remove|]);
    (split; [apply no_session_keys_empty|]);
    (split; [|done]);
    rewrite remove_sb_keys_lookup, auth_user_not_session_key;
    apply lookup_delete_eq.
Qed.



(** The callback [logout] schedules keeps the storages clean and reloads. *)
Lemma logout_timer_clears (env : Env) (s : State) :
  no_session_keys (localStorage s) → localStorage s !! "auth_user" = None →
  ∀ r s', V1.logout_timer env s = (r, s') →
          no_session_keys (localStorage s')
          ∧ localStorage s' !! "auth_user" = None
          ∧ (r = Ok tt → user s' = None ∧ sessionStorage s' = ∅).
Proof.
  intros Hns Ha. unfold V1.logout_timer. branch; intros r s' [= <- <-]; cbn;
    try done.
  split; [apply no_session_keys_remove|].
  split; [|done].
  rewrite remove_sb_keys_lookup, auth_user_not_session_key. apply lookup_delete_eq.
Qed.

(** ** [refreshUser] when the hosted service fails *)

Lemma no_profile_match {A} (q : QueryResult) (yes : AuthUser → A) (no : A) :
  no_profile q →
  match error q, data q with
  | None, Some profile => yes profile
  | _, _ => no
  end = no.
Proof. intros [[msg ->]| ->]; [done|]. by destruct (error q). Qed.

Lemma refreshUser_v1_session_failure (env : Env) (s : State) :
  SessionCheckFailure env →
  ∃ s', V1.refreshUser env s = (Ok tt, s')
        ∧ user s' = user s ∧ localStorage s' = localStorage s.
Proof.
  intros [e He]. unfold V1.refreshUser. run_js. rewrite He. run_js.
  by eexists.
Qed.

Lemma refreshUser_v1_fetch_failure (env : Env) (s : State) :
  ProfileFetchFailure env →
  ∃ s', V1.refreshUser env s = (Ok tt, s')
        ∧ user s' = user s ∧ localStorage s' = localStorage s.
Proof.
  intros Hfail. unfold V1.refreshUser, V1.fetchUserProfile. run_js.
  destruct Hfail;
    repeat match goal with
           | Heq : _ = _ |- _ => rewrite Heq; clear Heq; run_js
           | Hnp : no_profile _ |- _ => rewrite (no_profile_match _ _ _ Hnp); clear Hnp
           end;
    by eexists.
Qed.

Lemma refreshUser_v2_session_failure (env : Env) (s : State) :
  SessionCheckFailure env →
  ∃ s', V2.refreshUser env s = (Ok tt, s')
        ∧ user s' = user s ∧ localStorage s' = localStorage s.
Proof.
  intros [e He]. unfold V2.refreshUser. run_js. rewrite He. run_js.
  by eexists.
Qed.

Lemma refreshUser_v2_fetch_failure (env : Env) (s : State) :
  ProfileFetchFailure env →
  ∃ s', V2.refreshUser env s = (Ok tt, s')
        ∧ user s' = None ∧ localStorage s' = localStorage s.
Proof.
  intros Hfail. unfold V2.refreshUser, V2.fetchUserProfile. run_js.
  destruct Hfail;
    repeat match goal with
           | Heq : _ = _ |- _ => rewrite Heq; clear Heq; run_js
           | Hnp : no_profile _ |- _ => rewrite (no_profile_match _ _ _ Hnp); clear Hnp
           end;
    by eexists.
Qed.

(** In the first revision [refreshUser] never clears a user that is in
    memory: it leaves it or replaces it by a fetched profile. *)
Lemma refreshUser_v1_keeps_authenticated (env : Env) (s : State) (u : AuthUser) :
  user s = Some u →
  ∃ s' u', V1.refreshUser env s = (Ok tt, s') ∧ user s' = Some u'.
Proof.
  intros Hu. unfold V1.refreshUser, V1.fetchUserProfile. run_js. rewrite Hu.
  branch; by eexists _, _.
Qed.

(** With a user [u] in memory: in the first revision, when the session
    check of [refreshUser] or the profile fetch after it fails,
    [refreshUser] returns with the in-memory user still [u] and
    [isAuthenticated] true.  In the second revision that holds when the
    session check fails; when the profile fetch fails, [fetchUserProfile]
    reports it and sets the in-memory user to null. *)
Lemma refreshUser_failure_outcome (env : Env) (s : State) (u : AuthUser) :
  user s = Some u →
  (SessionCheckFailure env ∨ ProfileFetchFailure env →
   ∃ s', V1.refreshUser env s = (Ok tt, s')
         ∧ user s' = Some u ∧ isAuthenticated s' = true)
  ∧ (SessionCheckFailure env →
     ∃ s', V2.refreshUser env s = (Ok tt, s')
           ∧ user s' = Some u ∧ isAuthenticated s' = true)
  ∧ (ProfileFetchFailure env →
     ∃ s', V2.refreshUser env s = (Ok tt, s')
           ∧ user s' = None ∧ isAuthenticated s' = false).
Proof.
  intros Hu.
  assert (∀ s' : State, user s' = user s → isAuthenticated s' = true) as Hauth.
  { intros s' Hs'. unfold isAuthenticated. rewrite Hs', Hu.
    by apply bool_decide_eq_true_2. }
  split; [|split].
  - intros [Hf|Hf];
      [destruct (refreshUser_v1_session_failure env s Hf) as (s' & Hrun & Hu' & _)
      |destruct (refreshUser_v1_fetch_failure env s Hf) as (s' & Hrun & Hu' & _)];
      exists s'; (split; [done|]); (split; [congruence|by apply Hauth]).
  - intros Hf.
    destruct (refreshUser_v2_session_failure env s Hf) as (s' & Hrun & Hu' & _).
    exists s'. split; [done|]. split; [congruence|by apply Hauth].
  - intros Hf.
    destruct (refreshUser_v2_fetch_failure env s Hf) as (s' & Hrun & Hu' & _).
    exists s'. split; [done|]. split; [done|].
    unfold isAuthenticated. rewrite Hu'. apply bool_decide_eq_false_2. by intros [? ?].
Qed.

(** ** The cached profile follows the in-memory user *)

Lemma written_together_cached (s s' : State) :
  written_together s s' → cached_profile s → cached_profile s'.
Proof.
  intros [[Hu Hl]|[Hu|(p & Hu & Hl)]] Hinv u Hs'.
  - rewrite Hu in Hs'. rewrite Hl. by apply Hinv.
  - congruence.
  - rewrite Hu in Hs'. simplify_eq. exists (JSON_stringify (Some u)).
    split; [done|by left].
Qed.

Ltac solve_written :=
  first [ left; split; reflexivity
        | right; left; reflexivity
        | right; right; eexists; split; [reflexivity|apply lookup_insert_eq] ].

Lemma fetchUserProfile_written (token : string) (env : Env) (s : State) :
  written_together s (V1.fetchUserProfile token env s).2.
Proof. unfold V1.fetchUserProfile. branch; cbn; solve_written. Qed.

Lemma register_written (d : RegisterData) (env : Env) (s : State) :
  written_together s (V1.register d env s).2.
Proof.
  unfold V1.register, V1.install_session. branch; cbn; solve_written.
Qed.

Lemma login_task_written (env : Env) (s : State) :
  written_together s (V1.login_task env s).2.
Proof.
  destruct (login_task_outcome env s)
    as (b & s' & log & -> & _ & _ & _ & _ & _ & _ & Hb). cbn.
  destruct b.
  - destruct Hb as (u & Hu & Hl). right; right. exists u. split; [done|].
    rewrite Hl. apply lookup_insert_eq.
  - destruct Hb as [Hu _]. by right; left.
Qed.

Lemma login_written (email password : string) (env : Env) (s : State) :
  written_together s (V1.login email password env s).2.
Proof.
  unfold V1.login, bind.
  destruct (login_call_total email password s) as (p & s1 & -> & Hu1 & Hl1).
  destruct (login_task_written env s1) as [[Hu Hl]|[Hu|Hp]].
  - left. split; congruence.
  - by right; left.
  - by right; right.
Qed.

Lemma updateUser_written (payload : JsObject) (env : Env) (s : State) :
  written_together s (V1.updateUser payload env s).2.
Proof.
  unfold V1.updateUser. branch; cbn;
    first [ solve_written
          | match goal with
            | |- context [data ?q] => destruct (data q)
            end; solve_written ].
Qed.

Lemma exec_cached (step : Op * Env) (s : State) :
  cached_profile s → cached_profile (exec step s).
Proof.
  destruct step as [op env]. unfold exec. cbn [fst snd]. intros Hinv.
  destruct op; cbn [run_op].
  - (* checkAuth *)
    eapply written_together_cached; [|done]. clear Hinv.
    unfold V1.checkAuth. run_js.
    destruct (getSession_o env) as [e|session]; run_js; [solve_written|].
    destruct (V1.session_token session) as [token|]; run_js.
    + match goal with
      | |- context [V1.fetchUserProfile token env ?s0] =>
          pose proof (fetchUserProfile_written token env s0) as Hw;
          destruct (V1.fetchUserProfile token env s0) as [[[]|e] s1]
      end; cbn in *; done.
    + destruct user0; run_js; solve_written.
  - (* onAuthStateChange *)
    eapply written_together_cached; [|done]. clear Hinv.
    unfold V1.onAuthStateChange. run_js.
    destruct event, (V1.session_token session) as [token|]; run_js;
      try solve_written;
      match goal with
      | |- context [V1.fetchUserProfile ?t env ?s0] =>
          apply (fetchUserProfile_written t env s0)
      end.
  - by eapply written_together_cached; [apply fetchUserProfile_written|].
  - by eapply written_together_cached; [apply register_written|].
  - destruct (login_call_total email password s) as (p & s1 & Hc & Hu1 & Hl1).
    unfold bind. rewrite Hc. cbn. intros u Hu. rewrite Hu1 in Hu.
    rewrite Hl1. by apply Hinv.
  - unfold bind, gets. destruct (loginPromiseRef s); [|done].
    pose proof (login_task_written env s) as Hw.
    destruct (V1.login_task env s) as [[b|e] s1]; cbn in *;
      by eapply written_together_cached.
  - destruct (logout_v1_clears env fault s) as (s' & -> & _ & _ & _ & Hu & _).
    cbn. intros u. by rewrite Hu.
  - eapply written_together_cached; [|done]. clear Hinv.
    unfold V1.logout_timer. branch; cbn; solve_written.
  - by eapply written_together_cached; [apply updateUser_written|].
  - (* refreshUser *)
    unfold V1.refreshUser. run_js.
    destruct (getSession_o env) as [e|session]; run_js; [done|].
    destruct (V1.session_token session) as [token|]; run_js.
    + match goal with
      | |- context [V1.fetchUserProfile token env ?s0] =>
          pose proof (fetchUserProfile_written token env s0) as Hw;
          destruct (V1.fetchUserProfile token env s0) as [[[]|e] s1]
      end; cbn in *; by eapply written_together_cached.
    + destruct (localStorage0 !! "auth_user") as [text|] eqn:Hl,
               user0 as [u0|] eqn:Hu0; run_js; try done.
      destruct (truthy text); run_js; [|intros u; cbn; congruence].
      destruct (JSON_parse text) as [parsed|] eqn:Hp; run_js.
      * intros u Hu. cbn in *. subst parsed. exists text. split; [done|by right].
      * intros u Hu; cbn in *. congruence.
Qed.

Lemma run_trace_cached (trace : list (Op * Env)) (s : State) :
  cached_profile s → cached_profile (run_trace trace s).
Proof.
  revert s. induction trace as [|step trace IH]; intros s Hinv; [done|].
  cbn. apply IH. by apply exec_cached.
Qed.

(** C3. In the first revision, in every state the store reaches from
    its start by any run of its operations (mount check, auth events,
    profile fetch, register, login, logout and its timer, updateUser,
    refreshUser), a user in memory has a serialized copy under
    ['auth_user'] in local storage.  After a login that resolves to [true]
    the store is authenticated and the cached text is [JSON.stringify] of
    the in-memory profile.  Login, register, profile fetch and updateUser
    each leave the pair of copies untouched, or the user null, or the user
    a profile whose [JSON.stringify] is the cached text. *)
Theorem cached_profile_invariant (trace : list (Op * Env))
    (ls ss : gmap string string) :
  let s := run_trace trace (initial ls ss) in
  cached_profile s
  ∧ (∀ step, cached_profile (exec step s))
  ∧ (∀ email password env,
        match V1.login email password env s with
        | (Ok true, s') =>
            isAuthenticated s' = true
            ∧ ∃ u, user s' = Some u
                   ∧ localStorage s' !! "auth_user" = Some (JSON_stringify (Some u))
        | (Ok false, s') => isAuthenticated s' = false
        | (Threw _, _) => False
        end)
  ∧ (∀ email password env, written_together s (V1.login email password env s).2)
  ∧ (∀ d env, written_together s (V1.register d env s).2)
  ∧ (∀ token env, written_together s (V1.fetchUserProfile token env s).2)
  ∧ (∀ payload env, written_together s (V1.updateUser payload env s).2).
Proof.
  intros s.
  assert (cached_profile s) as Hinv.
  { apply run_trace_cached. intros u Hu. cbn in Hu. congruence. }
  split; [done|]. split; [intros step; by apply exec_cached|].
  split.
  { intros email password env.
    destruct (login_v1_boolean email password env s) as (b & s' & -> & Hf & Ht).
    destruct b.
    - destruct (Ht eq_refl) as (u & Hu & Hl). split; [|by exists u].
      unfold isAuthenticated. rewrite Hu. by apply bool_decide_eq_true_2.
    - by destruct (Hf eq_refl) as (_ & _ & Hi). }
  split; [intros; apply login_written|].
  split; [intros; apply register_written|].
  split; [intros; apply fetchUserProfile_written|].
  intros; apply updateUser_written.
Qed.

(** ** Concurrent callers of [login] *)

Lemma login_requests_app (l1 l2 : list Effect) :
  login_requests (l1 ++ l2) = login_requests l1 + login_requests l2.
Proof. unfold login_requests. by rewrite List.filter_app, length_app. Qed.

Lemma login_requests_login (body : JsObject) :
  login_requests [Fetch "/auth/login" body] = 1.
Proof. reflexivity. Qed.

Lemma login_requests_none (log : list Effect) :
  (∀ e, e ∈ log → ∀ endpoint body, e ≠ Fetch endpoint body) →
  login_requests log = 0.
Proof.
  induction log as [|e log IH]; intros Hlog; [done|].
  unfold login_requests in *. cbn.
  destruct e; cbn; try (apply IH; intros e' He'; apply Hlog; by right).
  exfalso. eapply (Hlog _ ltac:(by left)). reflexivity.
Qed.

Lemma step_call_idle (caller : nat) (email password : string) (m : Machine) :
  loginPromiseRef (store m) = None →
  step (Call caller email password) m
  = {| store := mkState (user (store m)) true (Some (promiseCount (store m)))
                        (S (promiseCount (store m)))
                        (localStorage (store m)) (sessionStorage (store m))
                        (effects (store m)
                         ++ [Fetch "/auth/login" (ApiClient.credentials email password)]);
       resolved := resolved m;
       returned := (caller, promiseCount (store m)) :: returned m |}.
Proof. intros Hidle. unfold step. by rewrite login_call_idle. Qed.

Lemma step_call_in_flight (caller : nat) (email password : string) (m : Machine)
    (p : nat) :
  loginPromiseRef (store m) = Some p →
  step (Call caller email password) m
  = {| store := store m; resolved := resolved m;
       returned := (caller, p) :: returned m |}.
Proof. intros Hp. unfold step. by rewrite (login_call_in_flight _ _ _ p). Qed.

Lemma run_cons (ev : Event) (events : list Event) (m : Machine) :
  run (ev :: events) m = run events (step ev m).
Proof. reflexivity. Qed.

(** Further calls while the promise [p] is in flight: each gets [p],
    the store does not change. *)
Lemma calls_in_flight (others : list (nat * string * string)) (m : Machine) (p : nat) :
  loginPromiseRef (store m) = Some p →
  run (calls others) m
  = {| store := store m; resolved := resolved m;
       returned := reverse (map (λ c, (c.1.1, p)) others) ++ returned m |}.
Proof.
  revert m. induction others as [|c others IH]; intros m Hp.
  - by destruct m.
  - change (calls (c :: others)) with (Call c.1.1 c.1.2 c.2 :: calls others).
    rewrite run_cons, (step_call_in_flight _ _ _ _ p) by done.
    rewrite IH by done. cbn [store resolved returned map].
    by rewrite reverse_cons, <- app_assoc.
Qed.

(** C1. From a store with no login in flight, let one caller call
    [login] and any number of further callers call it before the promise
    settles.  One login request is sent to the backend, whatever the number
    of callers; every caller holds the same promise; when it settles every
    caller sees the same boolean, the one the first call's task computed;
    and the in-flight promise is cleared. *)
Theorem login_in_flight_shared (s : State) (first : nat * string * string)
    (others : list (nat * string * string)) (env : Env) :
  loginPromiseRef s = None →
  let pending := run (calls (first :: others)) (idle s) in
  let settled := step (Settle env) pending in
  login_requests (effects (store pending)) = S (login_requests (effects s))
  ∧ login_requests (effects (store settled)) = S (login_requests (effects s))
  ∧ loginPromiseRef (store pending) = Some (promiseCount s)
  ∧ length (returned settled) = S (length others)
  ∧ (∃ b, (V1.login_task env (store pending)).1 = Ok b
          ∧ ∀ caller p, (caller, p) ∈ returned settled →
                        p = promiseCount s ∧ resolved settled !! p = Some b)
  ∧ loginPromiseRef (store settled) = None.
Proof.
  intros Hidle pending settled.
  assert (pending
          = {| store := mkState (user s) true (Some (promiseCount s)) (S (promiseCount s))
                          (localStorage s) (sessionStorage s)
                          (effects s ++ [Fetch "/auth/login"
                                           (ApiClient.credentials first.1.2 first.2)]);
               resolved := ∅;
               returned := reverse (map (λ c, (c.1.1, promiseCount s)) others)
                           ++ [(first.1.1, promiseCount s)] |}) as Hpending.
  { unfold pending.
    change (calls (first :: others))
      with (Call first.1.1 first.1.2 first.2 :: calls others).
    rewrite run_cons, step_call_idle by done.
    by rewrite (calls_in_flight _ _ (promiseCount s)). }
  assert (login_requests (effects (store pending)) = S (login_requests (effects s)))
    as Hreq.
  { rewrite Hpending. cbn [store effects].
    rewrite login_requests_app, login_requests_login. lia. }
  destruct (login_task_outcome env (store pending))
    as (b & s' & log & Htask & Href & _ & _ & _ & Heff & Hlog & _).
  assert (settled = {| store := s'; resolved := <[promiseCount s := b]> ∅;
                       returned := returned pending |}) as Hsettled.
  { unfold settled, step. rewrite Hpending in Htask |- *.
    cbn [store loginPromiseRef resolved returned] in Htask |- *. by rewrite Htask. }
  split; [done|]. split.
  { rewrite Hsettled. cbn [store]. rewrite Heff, login_requests_app, Hreq.
    rewrite (login_requests_none log) by done. lia. }
  split; [by rewrite Hpending|]. split.
  { rewrite Hsettled, Hpending. cbn.
    rewrite length_app, length_reverse, length_map. cbn. lia. }
  split; [|by rewrite Hsettled].
  exists b. split; [by rewrite Htask|].
  intros caller p Hin. rewrite Hsettled in Hin |- *. cbn in *.
  assert (p = promiseCount s) as ->.
  { rewrite Hpending in Hin. cbn in Hin.
    apply elem_of_app in Hin as [Hin|Hin].
    - apply elem_of_reverse, list_elem_of_fmap in Hin as (c & [= _ ->] & _). done.
    - apply list_elem_of_singleton in Hin. by simplify_eq. }
  split; [done|apply lookup_insert_eq].
Qed.

(** Over any interleaving of calls and settlements, the store sends one
    login request per promise it creates. *)
Lemma one_request_per_promise (events : list Event) (m : Machine) :
  login_requests (effects (store (run events m))) + promiseCount (store m)
  = login_requests (effects (store m)) + promiseCount (store (run events m)).
Proof.
  revert m. induction events as [|ev events IH]; intros m; [done|].
  rewrite run_cons. specialize (IH (step ev m)).
  assert (login_requests (effects (store (step ev m))) + promiseCount (store m)
          = login_requests (effects (store m)) + promiseCount (store (step ev m)))
    as Hstep; [|lia].
  clear IH. destruct ev as [caller email password|env].
  - destruct (loginPromiseRef (store m)) as [p|] eqn:Hp.
    + by rewrite (step_call_in_flight _ _ _ _ p).
    + rewrite step_call_idle by done. cbn [store effects promiseCount].
      rewrite login_requests_app, login_requests_login. lia.
  - unfold step. destruct (loginPromiseRef (store m)) as [p|]; [|done].
    destruct (login_task_outcome env (store m))
      as (b & s' & log & -> & _ & _ & Hc & _ & Heff & Hlog & _).
    cbn [store].
    rewrite Heff, login_requests_app, (login_requests_none log) by done. lia.
Qed.

(** * Further properties of the store *)

(** ** [logout] *)

Lemma sign_out_v1_silent (env : Env) (s : State) :
  ∃ log, V1.sign_out_best_effort env s
         = (Ok tt, mkState (user s) (isLoading s) (loginPromiseRef s) (promiseCount s)
                           (localStorage s) (sessionStorage s) (effects s ++ log))
         ∧ Forall silent log.
Proof.
  unfold V1.sign_out_best_effort. branch;
    eexists; rewrite <- ?app_assoc; (split; [reflexivity|]);
    repeat constructor.
Qed.

Ltac run_statements :=
  unfold V1.clear_storage; cbn [app]; cbv [block]; run_js.

Ltac sign_out_silent_step :=
  match goal with
  | |- context [V1.sign_out_best_effort ?env ?s0] =>
      let log := fresh "log" in
      let Hlog := fresh "Hlog" in
      destruct (sign_out_v1_silent env s0) as (log & -> & Hlog)
  end.

(** X1. [logout] of the first revision, on its [try] path and on its
    [catch] path: session storage is left empty, whatever it held; in local
    storage ['auth_user'] and the keys starting with ['sb-'] are gone and
    every other key keeps its value. *)
Theorem logout_storage_exact (env : Env) (fault : option (nat * JsError)) (s : State) :
  sessionStorage (V1.logout env fault s).2 = ∅
  ∧ ∀ k, localStorage (V1.logout env fault s).2 !! k
         = if decide (k = "auth_user") then None
           else if startsWith "sb-" k then None
           else localStorage s !! k.
Proof.
  unfold V1.logout.
  destruct fault as [[k0 e]|]; [do 10 (try destruct k0 as [|k0])|];
    run_block; try sign_out_step; run_block;
    (split; [reflexivity|]); intros k;
    rewrite ?remove_sb_keys_lookup;
    destruct (startsWith "sb-" k) eqn:Hk;
    destruct (decide (k = "auth_user")) as [->|Hne];
    rewrite ?remove_sb_keys_lookup, ?Hk, ?lookup_delete_eq;
    rewrite ?lookup_delete_ne by done;
    rewrite ?remove_sb_keys_lookup, ?Hk, ?lookup_delete_eq;
    rewrite ?lookup_delete_ne by done;
    try done.
Qed.

Lemma reloads_scheduled_app (l1 l2 : list Effect) :
  reloads_scheduled (l1 ++ l2) = reloads_scheduled l1 + reloads_scheduled l2.
Proof. unfold reloads_scheduled. by rewrite List.filter_app, length_app. Qed.

Lemma reloads_scheduled_silent (log : list Effect) :
  Forall silent log → reloads_scheduled log = 0.
Proof.
  induction 1 as [|e log He _ IH]; [done|].
  unfold reloads_scheduled in *. cbn. by destruct e.
Qed.

(** X2. [logout] of the first revision never throws and schedules one
    page reload, no more and no fewer: when the sign-out succeeds, when it
    fails, and when a statement of the [try] block throws (the timer is then
    set by the [catch] block). *)
Theorem logout_schedules_one_reload (env : Env) (fault : option (nat * JsError))
    (s : State) :
  ∃ s' log,
    V1.logout env fault s = (Ok tt, s')
    ∧ effects s' = effects s ++ log
    ∧ reloads_scheduled log = 1
    ∧ (ToastSuccess "Logged out successfully" ∈ log ∨ ToastSuccess "Logged out" ∈ log).
Proof.
  unfold V1.logout.
  destruct fault as [[k0 e]|]; [do 10 (try destruct k0 as [|k0])|];
    run_statements; try sign_out_silent_step; run_statements;
    eexists _, _; (split; [reflexivity|]); cbn [effects];
    rewrite <- ?app_assoc; (split; [reflexivity|]);
    rewrite ?reloads_scheduled_app;
    rewrite ?(reloads_scheduled_silent log) by done;
    (split; [reflexivity|]);
    rewrite ?elem_of_app, !elem_of_cons; tauto.
Qed.

(** X3. The callback [logout] schedules: when its own sign-out or the
    call that drops the session rejects, it stops there, nothing is removed
    and the page is not reloaded; otherwise it purges as [logout] did,
    reloads, and the store restarts with no user, loading, and no login in
    flight. *)
Theorem logout_timer_outcome (env : Env) (s : State) :
  match signOut_o env, setSession_o env with
  | Rejects e, _ =>
      V1.logout_timer env s
      = (Threw e, mkState (user s) (isLoading s) (loginPromiseRef s) (promiseCount s)
                          (localStorage s) (sessionStorage s) (effects s ++ [SignOut]))
  | Resolves _, Rejects e =>
      V1.logout_timer env s
      = (Threw e, mkState (user s) (isLoading s) (loginPromiseRef s) (promiseCount s)
                          (localStorage s) (sessionStorage s)
                          (effects s ++ [SignOut; SetSession None]))
  | Resolves _, Resolves _ =>
      V1.logout_timer env s
      = (Ok tt, mkState None true None (promiseCount s)
                        (remove_sb_keys (delete "auth_user" (localStorage s))) ∅
                        (effects s ++ [SignOut; SetSession None; Reload]))
  end.
Proof.
  unfold V1.logout_timer.
  destruct (signOut_o env), (setSession_o env); run_js;
    rewrite <- ?app_assoc; reflexivity.
Qed.

(** ** [login] *)

(** X4. Over any interleaving of [login] calls and settlements that
    starts with no login in flight, the store has sent as many login requests
    as it has created promises: a call that finds a promise in flight sends
    nothing, a call that finds none sends one request. *)
Theorem login_requests_match_promises (events : list Event) (s : State) :
  login_requests (effects (store (run events (idle s)))) + promiseCount s
  = login_requests (effects s) + promiseCount (store (run events (idle s))).
Proof. apply (one_request_per_promise events (idle s)). Qed.

(** X5. Once the in-flight login has settled the cache is empty again:
    the next call sends a second request and gets a new promise, which is
    still pending, while the first caller's promise is resolved. *)
Theorem login_after_settle_sends_again (s : State) (c1 c2 : nat)
    (email1 password1 email2 password2 : string) (env : Env) :
  loginPromiseRef s = None →
  let m := run [Call c1 email1 password1; Settle env; Call c2 email2 password2]
               (idle s) in
  login_requests (effects (store m)) = 2 + login_requests (effects s)
  ∧ returned m = [(c2, S (promiseCount s)); (c1, promiseCount s)]
  ∧ is_Some (resolved m !! promiseCount s)
  ∧ resolved m !! S (promiseCount s) = None
  ∧ loginPromiseRef (store m) = Some (S (promiseCount s)).
Proof.
  intros Hidle m. unfold m. rewrite !run_cons. unfold run. cbn [foldl].
  rewrite (step_call_idle c1 email1 password1 (idle s)) by done.
  unfold idle. cbn [store resolved returned].
  match goal with
  | |- context [step (Settle env) ?m1] => set (pending := m1)
  end.
  destruct (login_task_outcome env (store pending))
    as (b & s' & log & Htask & Href & _ & Hcount & _ & Heff & Hlog & _).
  assert (step (Settle env) pending
          = {| store := s'; resolved := <[promiseCount s := b]> ∅;
               returned := [(c1, promiseCount s)] |}) as ->.
  { unfold step, pending in *. cbn [store loginPromiseRef resolved returned] in *.
    by rewrite Htask. }
  rewrite step_call_idle by done. cbn [store resolved returned effects loginPromiseRef].
  rewrite Hcount, Heff. unfold pending. cbn [store effects promiseCount].
  rewrite !login_requests_app, login_requests_login,
          (login_requests_none log) by done.
  rewrite login_requests_login.
  split; [lia|]. split; [done|]. split; [by rewrite lookup_insert_eq|].
  split; [|done]. rewrite lookup_insert_ne by lia. done.
Qed.


(** X7. A login whose request timed out is reported with the time-out
    text of [_fetch]: the first revision resolves to [false], shows the
    toast ['Request timed out. Please try again.'], and leaves no user and no
    cached profile. *)
Theorem login_timeout_message (env : Env) (s : State) (m : string) :
  fetch_o env = Rejects (AbortError m) →
  ∃ s', V1.login_task env s = (Ok false, s')
        ∧ effects s' = effects s
                       ++ [ConsoleError "Login error:"; ConsoleError "Login error:";
                           ToastError "Request timed out. Please try again.";
                           ConsoleLog "[Auth] setIsLoading(false) called in login.finally"]
        ∧ user s' = None
        ∧ localStorage s' !! "auth_user" = None.
Proof.
  intros Hf. unfold V1.login_task. run_js. rewrite Hf. run_js.
  eexists. split; [reflexivity|]. cbn. rewrite <- !app_assoc.
  split; [done|]. split; [done|]. apply lookup_delete_eq.
Qed.

(** X8. [ApiClient.login] installs the tokens of the backend's answer
    and no others: with tokens in the answer one [setSession] call carries
    exactly that pair, and a rejection of that call makes [login] reject
    although the backend accepted; without tokens no [setSession] call is
    made. *)
Theorem api_login_installs_tokens (email password : string) (env : Env) (s : State)
    (response : ApiResponse) :
  fetch_o env = Resolves (Some response) →
  match r_tokens response, setSession_o env with
  | None, _ =>
      ApiClient.login email password env s
      = (Ok (Some response),
         mkState (user s) (isLoading s) (loginPromiseRef s) (promiseCount s)
                 (localStorage s) (sessionStorage s)
                 (effects s ++ [Fetch "/auth/login"
                                  (ApiClient.credentials email password)]))
  | Some (a, r), Resolves _ =>
      ApiClient.login email password env s
      = (Ok (Some response),
         mkState (user s) (isLoading s) (loginPromiseRef s) (promiseCount s)
                 (localStorage s) (sessionStorage s)
                 (effects s ++ [Fetch "/auth/login"
                                  (ApiClient.credentials email password);
                                SetSession (Some {| access_token := a;
                                                    refresh_token := r |})]))
  | Some (a, r), Rejects e =>
      ApiClient.login email password env s
      = (Threw e,
         mkState (user s) (isLoading s) (loginPromiseRef s) (promiseCount s)
                 (localStorage s) (sessionStorage s)
                 (effects s ++ [Fetch "/auth/login"
                                  (ApiClient.credentials email password);
                                SetSession (Some {| access_token := a;
                                                    refresh_token := r |});
                                ConsoleError "Login error:"]))
  end.
Proof.
  intros Hf.
  destruct (r_tokens response) as [[a r]|] eqn:Ht;
    [destruct (setSession_o env) eqn:Hs|];
    run_js; rewrite Hf; run_js; rewrite Ht; run_js; rewrite ?Hs; run_js;
    rewrite <- ?app_assoc; reflexivity.
Qed.

(** ** [register] *)

(** X9. When the backend call of [register] rejects, [register] rejects
    with the error [_fetch] threw, shows its message in an error toast
    (['Registration failed'] for a thrown value that is no [Error]), turns
    the loading flag off, and leaves the user and both storages as they
    were. *)
Theorem register_failure (d : RegisterData) (env : Env) (s : State) (e : JsError) :
  fetch_o env = Rejects e →
  ∃ s', V1.register d env s = (Threw (fetch_error e), s')
        ∧ user s' = user s
        ∧ localStorage s' = localStorage s
        ∧ sessionStorage s' = sessionStorage s
        ∧ isLoading s' = false
        ∧ ToastError (message_or "Registration failed" (fetch_error e)) ∈ effects s'
        ∧ ∀ m, ToastSuccess m ∈ effects s' → ToastSuccess m ∈ effects s.
Proof.
  intros Hf. unfold V1.register. run_js. rewrite Hf.
  destruct e; run_js; (eexists; split; [reflexivity|]); cbn;
    rewrite <- ?app_assoc; (repeat split; try done);
    rewrite ?elem_of_app, ?elem_of_cons; try (by auto 10);
    intros m0 Hin; set_unfold in Hin; destruct_or?; done.
Qed.

(** X10. When the backend answers a registration without a user,
    [register] still completes and shows the success toast, and nothing is
    stored: the user and the cached profile are as they were. *)
Theorem register_without_user (d : RegisterData) (env : Env) (s : State)
    (response : ApiResponse) :
  fetch_o env = Resolves (Some response) →
  r_user response = None →
  ∃ s', V1.register d env s = (Ok tt, s')
        ∧ user s' = user s
        ∧ localStorage s' = localStorage s
        ∧ isLoading s' = false
        ∧ ToastSuccess "Account created successfully!" ∈ effects s'.
Proof.
  intros Hf Hu. unfold V1.register. run_js. rewrite Hf. run_js.
  destruct (r_session response) as [sess|].
  - match goal with
    | |- context [V1.install_session sess env ?s0] =>
        destruct (install_session_total sess env s0) as (log & -> & Hlog)
    end.
    rewrite Hu. run_js. eexists. split; [reflexivity|]. cbn.
    repeat split; try done. rewrite !elem_of_app, !elem_of_cons. auto 10.
  - rewrite Hu. run_js. eexists. split; [reflexivity|]. cbn.
    repeat split; try done. rewrite !elem_of_app, !elem_of_cons. auto 10.
Qed.

(** ** [fetchUserProfile], [checkAuth], the auth listener *)

(** X11. First login after sign-up: when the hosted service knows the
    user, the select delivers no profile and the insert answers with a row,
    [fetchUserProfile] inserts a row with the hosted user's [id] and [email],
    the metadata name or else the email as [name], and the current time as
    both timestamps; the row the insert answered with becomes the in-memory
    user and the cached profile. *)
Theorem fetchUserProfile_first_login (token : string) (env : Env) (s : State)
    (r : UserResponse) (su : SupaUser) (q : QueryResult) (created : AuthUser) :
  getUser_o env = Resolves r → u_user r = Some su →
  select_o env = Resolves q → no_profile q →
  insert_o env = Resolves {| data := Some created; error := None |} →
  ∃ s' row,
    V1.fetchUserProfile token env s = (Ok tt, s')
    ∧ InsertUser row ∈ effects s'
    ∧ row !! "id" = Some (JStr (su_id su))
    ∧ row !! "email" = Some (JStr (su_email su))
    ∧ row !! "name" = Some (JStr (match su_name su with
                                  | Some n => if decide (n = EmptyString)
                                              then su_email su else n
                                  | None => su_email su
                                  end))
    ∧ row !! "created_at" = Some (JStr (now env))
    ∧ row !! "updated_at" = Some (JStr (now env))
    ∧ dom row = {["id"; "name"; "email"; "created_at"; "updated_at"]}
    ∧ user s' = Some created
    ∧ localStorage s' = <["auth_user" := JSON_stringify (Some created)]> (localStorage s)
    ∧ isLoading s' = false.
Proof.
  intros Hg Hu Hs Hnp Hi. unfold V1.fetchUserProfile. run_js.
  rewrite Hg. run_js. rewrite Hu. run_js. rewrite Hs. run_js.
  rewrite (no_profile_match _ _ _ Hnp). rewrite Hi. run_js.
  eexists _, (V1.new_profile_row su env). split; [reflexivity|]. cbn.
  split; [rewrite !elem_of_app, !elem_of_cons; auto 10|].
  unfold V1.new_profile_row, truthy.
  repeat split; try (by simplify_map_eq).
  destruct (su_name su) as [n|]; [|by simplify_map_eq].
  destruct (decide (n = EmptyString)) as [->|Hn].
  - by simplify_map_eq.
  - rewrite bool_decide_eq_true_2 by done. by simplify_map_eq.
Qed.

(** X12. [fetchUserProfile], [checkAuth] and [refreshUser] of the first
    revision never reject, whatever the hosted service does; the first two
    always end with the loading flag off. *)
Theorem session_checks_never_reject (token : string) (env : Env) (s : State) :
  (∃ s', V1.fetchUserProfile token env s = (Ok tt, s') ∧ isLoading s' = false)
  ∧ (∃ s', V1.checkAuth env s = (Ok tt, s') ∧ isLoading s' = false)
  ∧ (∃ s', V1.refreshUser env s = (Ok tt, s')).
Proof.
  split; [|split].
  - unfold V1.fetchUserProfile. branch; by eexists.
  - unfold V1.checkAuth, V1.fetchUserProfile. branch; by eexists.
  - unfold V1.refreshUser, V1.fetchUserProfile. branch; by eexists.
Qed.

(** X13. The mount check of the first revision does not restore a
    cached profile: started with no user in memory and finding no session,
    [checkAuth] removes ['auth_user']; a [refreshUser] that follows and
    finds no session either has nothing to restore, and the user stays
    null. *)
Theorem checkAuth_drops_cache (env env' : Env) (s : State)
    (session session' : option Session) :
  user s = None →
  getSession_o env = Resolves session → V1.session_token session = None →
  getSession_o env' = Resolves session' → V1.session_token session' = None →
  ∃ s1 s2, V1.checkAuth env s = (Ok tt, s1)
           ∧ localStorage s1 !! "auth_user" = None
           ∧ user s1 = None
           ∧ V1.refreshUser env' s1 = (Ok tt, s2)
           ∧ user s2 = None
           ∧ localStorage s2 !! "auth_user" = None.
Proof.
  intros Hu Hg Ht Hg' Ht'. unfold V1.checkAuth. run_js.
  rewrite Hu, Hg. run_js. rewrite Ht. run_js.
  eexists _, _. split; [reflexivity|]. cbn.
  split; [apply lookup_delete_eq|]. split; [done|].
  unfold V1.refreshUser. run_js. rewrite Hg'. run_js. rewrite Ht'. run_js.
  rewrite lookup_delete_eq. run_js. split; [reflexivity|]. cbn.
  split; [done|apply lookup_delete_eq].
Qed.


(** X15. A [SIGNED_OUT] event clears the store whatever session comes
    with it: the user is null, ['auth_user'] is removed, the loading flag is
    off.  An event that is none of [SIGNED_IN], [SIGNED_OUT] and
    [TOKEN_REFRESHED], or that comes without a token, only writes the
    console line. *)
Theorem auth_listener_events (event : V1.AuthChangeEvent) (session : option Session)
    (env : Env) (s : State) :
  (event = V1.SIGNED_OUT →
   V1.onAuthStateChange event session env s
   = (Ok tt, mkState None false (loginPromiseRef s) (promiseCount s)
                     (delete "auth_user" (localStorage s)) (sessionStorage s)
                     (effects s ++ [ConsoleLog "Auth state change:"])))
  ∧ (event = V1.OTHER_EVENT ∨ (event ≠ V1.SIGNED_OUT ∧ V1.session_token session = None) →
     V1.onAuthStateChange event session env s
     = (Ok tt, mkState (user s) (isLoading s) (loginPromiseRef s) (promiseCount s)
                       (localStorage s) (sessionStorage s)
                       (effects s ++ [ConsoleLog "Auth state change:"]))).
Proof.
  unfold V1.onAuthStateChange. split.
  - intros ->. run_js. by destruct (V1.session_token session).
  - intros [->|[Hne Ht]]; run_js.
    + by destruct (V1.session_token session).
    + rewrite Ht. by destruct event.
Qed.

(** ** [updateUser], [refreshUser] *)

(** X16. When the update of the users table fails, [updateUser] rejects
    and the user and the cached profile are as they were.  A rejection of
    the call is rethrown as it is; an error answer is replaced by the error
    ['Failed to update profile'], whatever the table's message was.  The
    toast shows the message of what is thrown. *)
Theorem updateUser_failure (payload : JsObject) (env : Env) (s : State)
    (u : AuthUser) (thrown : JsError) :
  user s = Some u →
  update_failure env thrown →
  ∃ s', V1.updateUser payload env s = (Threw thrown, s')
        ∧ user s' = Some u
        ∧ localStorage s' = localStorage s
        ∧ UpdateUser (sent_payload payload env) (u !! "id") ∈ effects s'
        ∧ ToastError (message_or "Update failed" thrown) ∈ effects s'.
Proof.
  intros Hu [Hr|(-> & answer & msg & Hr)]; unfold V1.updateUser; run_js;
    rewrite Hu; run_js; rewrite Hr; run_js;
    (eexists; split; [reflexivity|]); cbn; unfold sent_payload;
    (repeat split; try done);
    rewrite !elem_of_app, !elem_of_cons; auto 10.
Qed.

(** X17. [refreshUser] leaves an empty text cached under ['auth_user']
    alone: with no session and no user in memory, the empty text is neither
    parsed nor removed, and the store is as before but for the session
    call. *)
Theorem refreshUser_empty_cache_text (env : Env) (s : State)
    (session : option Session) :
  getSession_o env = Resolves session →
  V1.session_token session = None →
  localStorage s !! "auth_user" = Some EmptyString →
  V1.refreshUser env s
  = (Ok tt, mkState (user s) (isLoading s) (loginPromiseRef s) (promiseCount s)
                    (localStorage s) (sessionStorage s) (effects s ++ [GetSession])).
Proof.
  intros Hg Ht Hl. unfold V1.refreshUser. run_js. rewrite Hg. run_js.
  rewrite Ht. run_js. rewrite Hl. by destruct user0.
Qed.

(** ** The second revision's [login] *)

(** X18. In the second revision [login] reads the [user] of the render
    it was created in.  Called while no user is in memory it resolves to
    [false] whatever the backend and the hosted service answer, also when
    the login is accepted and the profile is fetched: the user is null and
    ['auth_user'] is removed when it returns. *)
Theorem login_v2_needs_user_in_memory (email password : string) (env : Env) (s : State) :
  user s = None →
  ∃ s', V2.login email password env s = (Ok false, s')
        ∧ user s' = None
        ∧ localStorage s' !! "auth_user" = None
        ∧ isLoading s' = false.
Proof.
  intros Hu. unfold V2.login, V2.login_failed, V2.fetchUserProfile. run_js.
  rewrite Hu. branch;
    first [ exfalso;
            match goal with
            | Hc : _ && bool_decide (is_Some None) = true |- _ =>
                rewrite andb_comm in Hc; discriminate Hc
            end
          | (eexists; split; [reflexivity|]); cbn;
            (split; [done|]); (split; [apply lookup_delete_eq|done]) ].
Qed.

(** ** [ApiClient.updateUser] *)

(** X19. [ApiClient.updateUser] sends no update unless the hosted
    service reports a user without an error: an error of [getUser] is
    thrown as it is, a missing user is the error ['Not authenticated'], and
    in both cases the only call made is [getUser]. *)
Theorem api_updateUser_unauthenticated (_id : string) (userData : JsObject)
    (env : Env) (s : State) (r : UserResponse) :
  getUser_o env = Resolves r →
  is_Some (u_error r) ∨ u_user r = None →
  ∃ e, ApiClient.updateUser _id userData env s
       = (Threw e, mkState (user s) (isLoading s) (loginPromiseRef s) (promiseCount s)
                           (localStorage s) (sessionStorage s)
                           (effects s ++ [GetUser None]))
       ∧ e = match u_error r with
             | Some msg => Error msg
             | None => Error "Not authenticated"
             end.
Proof.
  intros Hg Hr. unfold ApiClient.updateUser. run_js. rewrite Hg. run_js.
  destruct (u_error r) as [msg|] eqn:He.
  - by eexists.
  - destruct Hr as [[? ?]| ->]; [done|]. by eexists.
Qed.

(** ** Callers of the store *)

(** X20. [LoginForm.handleSubmit] with the first revision's [login]
    never throws; it resets the form and calls [onSuccess] exactly when the
    store is authenticated after the login. *)
Theorem LoginForm_success_iff_authenticated (email password : string) (env : Env)
    (s : State) :
  ∃ called s', Pages.LoginForm_handleSubmit email password env s = (Ok called, s')
               ∧ (called = true ↔ isAuthenticated s' = true).
Proof.
  unfold Pages.LoginForm_handleSubmit.
  destruct (login_v1_boolean email password env s) as (b & s' & Hrun & Hf & Ht).
  unfold bind. rewrite Hrun. destruct b; eexists _, s'; (split; [reflexivity|]).
  - destruct (Ht eq_refl) as (u & Hu & _). unfold isAuthenticated. rewrite Hu.
    split; [intros _|done]. by apply bool_decide_eq_true_2.
  - destruct (Hf eq_refl) as (_ & _ & Hi). rewrite Hi. split; intros; done.
Qed.

Lemma updateUser_effects (payload : JsObject) (env : Env) (s : State) :
  ∃ r s' log, V1.updateUser payload env s = (r, s')
              ∧ effects s' = effects s ++ log
              ∧ (∀ p k, UpdateUser p k ∈ log →
                        p = sent_payload payload env ∧ is_Some (user s))
              ∧ (r ≠ Ok tt → user s' = user s ∧ localStorage s' = localStorage s)
              ∧ Forall (λ e, e ≠ Reload) log.
Proof.
  unfold V1.updateUser, sent_payload. branch;
    eexists _, _, _; (split; [reflexivity|]); cbn [effects user localStorage];
    rewrite <- ?app_assoc; (split; [reflexivity|]);
    (split; [intros p k Hin; set_unfold in Hin; destruct_or?; simplify_eq; eauto|]);
    (split; [intros Hr; first [done|by destruct Hr]|]);
    repeat constructor; done.
Qed.


(** X22. [Profile.handleFileChange] never throws, and it sends an
    update only for a picked file of at most 5 * 1024 * 1024 bytes whose
    type starts with ['image/']; the update then carries the data URL as
    [avatar_url] and, [updated_at] apart, nothing else.  With no file, a
    larger file or another type, the user and the cached profile are
    unchanged. *)
Theorem handleFileChange_outcome (file : option Pages.PickedFile) (env : Env)
    (s : State) :
  ∃ s' log,
    Pages.handleFileChange file env s = (Ok tt, s')
    ∧ effects s' = effects s ++ log
    ∧ (∀ p k, UpdateUser p k ∈ log →
              ∃ f, file = Some f
                   ∧ (Pages.file_size f ≤ 5242880)%Z
                   ∧ startsWith "image/" (Pages.file_type f) = true
                   ∧ p = <["updated_at" := JStr (now env)]>
                           {[ "avatar_url" := JStr (Pages.file_dataUrl f) ]})
    ∧ ((∀ f, file = Some f →
             (5242880 < Pages.file_size f)%Z
             ∨ startsWith "image/" (Pages.file_type f) = false) →
       user s' = user s ∧ localStorage s' = localStorage s).
Proof.
  unfold Pages.handleFileChange. destruct file as [f|].
  - destruct (decide (5 * 1024 * 1024 < Pages.file_size f)%Z) as [Hbig|Hsmall].
    { run_js. eexists _, _. split; [reflexivity|]. cbn. split; [reflexivity|].
      split; [|done]. intros p k Hin. set_unfold in Hin. destruct_or?; done. }
    destruct (startsWith "image/" (Pages.file_type f)) eqn:Htype; cbn [negb].
    2:{ run_js. eexists _, _. split; [reflexivity|]. cbn. split; [reflexivity|].
        split; [|done]. intros p k Hin. set_unfold in Hin. destruct_or?; done. }
    destruct (updateUser_effects {[ "avatar_url" := JStr (Pages.file_dataUrl f) ]} env s)
      as (r & s1 & log & Hrun & Heff & Hsent & Hfail & _).
    unfold try_catch, bind. rewrite Hrun.
    assert (∀ p k, UpdateUser p k ∈ log →
              ∃ f0, Some f = Some f0
                    ∧ (Pages.file_size f0 ≤ 5242880)%Z
                    ∧ startsWith "image/" (Pages.file_type f0) = true
                    ∧ p = <["updated_at" := JStr (now env)]>
                            {[ "avatar_url" := JStr (Pages.file_dataUrl f0) ]})
      as Hpayload.
    { intros p k Hin. destruct (Hsent p k Hin) as [-> _]. exists f.
      split; [done|]. split; [lia|]. done. }
    assert (¬ (∀ f0, Some f = Some f0 →
                 (5242880 < Pages.file_size f0)%Z
                 ∨ startsWith "image/" (Pages.file_type f0) = false)) as Hnot.
    { intros Hall. destruct (Hall f eq_refl) as [?|?]; [lia|congruence]. }
    destruct r as [[]|e].
    + eexists _, (log ++ [ToastSuccess "Profile picture updated"]).
      unfold toast_success, effect, modify. cbn.
      rewrite Heff, <- app_assoc. split; [reflexivity|]. split; [reflexivity|].
      split; [|by intros ?].
      intros p k Hin. apply elem_of_app in Hin as [Hin|Hin]; [by apply (Hpayload p k)|].
      set_unfold in Hin. destruct_or?; done.
    + eexists _, (log ++ [ToastError "Failed to update profile picture"]).
      unfold toast_error, effect, modify. cbn.
      rewrite Heff, <- app_assoc. split; [reflexivity|]. split; [reflexivity|].
      split; [|by intros ?].
      intros p k Hin. apply elem_of_app in Hin as [Hin|Hin]; [by apply (Hpayload p k)|].
      set_unfold in Hin. destruct_or?; done.
  - run_js. eexists _, []. split; [reflexivity|]. cbn. rewrite app_nil_r.
    split; [reflexivity|]. split; [|done].
    intros p k Hin. by apply elem_of_nil in Hin.
Qed.

End Properties.

(** ** The image search answer *)

Module ImageSearchProps.
Import ImageSearch.

Lemma not_after_spec (a b : SearchResult) : not_after a b = true ↔ descending a b.
Proof. apply Qle_bool_iff. Qed.

Lemma not_after_false (a b : SearchResult) : not_after a b = false → descending b a.
Proof.
  intros Hf. unfold descending.
  destruct (Qlt_le_dec (similarity_or_0 a) (similarity_or_0 b)) as [Hlt|Hle].
  - by apply Qlt_le_weak.
  - apply not_after_spec in Hle. congruence.
Qed.

Lemma insert_result_perm (x : SearchResult) (l : list SearchResult) :
  insert_result x l ≡ₚ x :: l.
Proof.
  induction l as [|y l IH]; cbn; [done|].
  destruct (not_after x y); [done|]. rewrite IH. apply Permutation_swap.
Qed.

Lemma insert_result_hd (x a : SearchResult) (l : list SearchResult) :
  descending a x → HdRel descending a l → HdRel descending a (insert_result x l).
Proof.
  intros Hax Hl. destruct l as [|y l]; cbn; [by constructor|].
  destruct (not_after x y); constructor; [done|].
  by inversion Hl.
Qed.

Lemma insert_result_sorted (x : SearchResult) (l : list SearchResult) :
  Sorted descending l → Sorted descending (insert_result x l).
Proof.
  induction 1 as [|y l Hl IH Hhd]; cbn.
  - by repeat constructor.
  - destruct (not_after x y) eqn:Hxy.
    + constructor; [by constructor|]. constructor. by apply not_after_spec.
    + constructor; [done|]. apply insert_result_hd; [|done].
      by apply not_after_false.
Qed.

Lemma sort_by_similarity_sorted (l : list SearchResult) :
  Sorted descending (sort_by_similarity l).
Proof.
  induction l as [|x l IH]; cbn; [constructor|]. by apply insert_result_sorted.
Qed.

Lemma sort_by_similarity_perm (l : list SearchResult) : sort_by_similarity l ≡ₚ l.
Proof.
  induction l as [|x l IH]; cbn; [done|]. by rewrite insert_result_perm, IH.
Qed.

Lemma Sorted_take (n : nat) (l : list SearchResult) :
  Sorted descending l → Sorted descending (take n l).
Proof.
  revert n. induction l as [|x l IH]; intros n Hl; [by destruct n|].
  destruct n as [|n]; cbn; [constructor|].
  inversion Hl as [|? ? Hs Hhd]; subst. constructor; [by apply IH|].
  destruct l as [|y l], n as [|n]; cbn; try constructor.
  by inversion Hhd.
Qed.

(** C10. Every [200] answer of the image-upload search has [success]
    true; its [results] are the first 20 entries of the internal results
    followed by the external ones, stably sorted by similarity, a missing
    similarity counting as 0: they are in non-increasing order of
    similarity, each is one of the internal or external results, and there
    are at most 20 of them; [totalResults] is their number. *)
Theorem image_search_results (file : option UploadedFile) (db : Outcome DbAnswer)
    (random : nat → Q) (body : SearchBody) :
  image_search file db random = Status200 body →
  ∃ answer,
    db = Resolves answer
    ∧ success body = true
    ∧ results body
      = take 20 (sort_by_similarity
                   (internalResults random (db_data answer) ++ externalResults))
    ∧ sort_by_similarity (internalResults random (db_data answer) ++ externalResults)
      ≡ₚ internalResults random (db_data answer) ++ externalResults
    ∧ Sorted descending (results body)
    ∧ results body ⊆ internalResults random (db_data answer) ++ externalResults
    ∧ (length (results body) ≤ 20)%nat
    ∧ totalResults body = length (results body).
Proof.
  unfold image_search. destruct file as [f|]; [|done].
  destruct db as [e|answer]; [done|]. intros [= <-]. exists answer. cbn.
  unfold allResults, slice_0_20.
  split; [done|]. split; [done|]. split; [done|].
  split; [apply sort_by_similarity_perm|].
  split; [apply Sorted_take, sort_by_similarity_sorted|].
  split.
  - intros x Hx. apply (subseteq_take 20) in Hx.
    by rewrite sort_by_similarity_perm in Hx.
  - split; [|done]. rewrite length_take. lia.
Qed.

End ImageSearchProps.

(** * Further properties of the image search, the posts client and the feed *)

Module MoreImageSearch.
Import ImageSearch.

Lemma ties_insert (q : Q) (x : SearchResult) (l : list SearchResult) :
  ties q (insert_result x l) = ties q (x :: l).
Proof.
  induction l as [|y l IH]; [done|]. cbn [insert_result].
  destruct (not_after x y) eqn:Hxy; [done|].
  unfold ties in *. cbn [List.filter] in *. rewrite IH.
  destruct (Qeq_bool (similarity_or_0 x) q) eqn:Hx,
           (Qeq_bool (similarity_or_0 y) q) eqn:Hy; try done.
  exfalso. apply Qeq_bool_iff in Hx, Hy.
  assert (not_after x y = true) as Hle; [|congruence].
  apply Qle_bool_iff. rewrite Hx, Hy. apply Qle_refl.
Qed.

(** X23. The sort of the image search is stable: results of equal
    similarity come out in the order they went in, so that among equals an
    internal result stays before an external one, and internal results keep
    the order of the posts query. *)
Theorem sort_by_similarity_stable (q : Q) (l : list SearchResult) :
  ties q (sort_by_similarity l) = ties q l.
Proof.
  induction l as [|x l IH]; [done|]. cbn [sort_by_similarity foldr].
  rewrite ties_insert. unfold ties in *. cbn [List.filter].
  fold (sort_by_similarity l). by rewrite IH.
Qed.

Lemma internalResults_length (random : nat → Q) (products : option (list Product)) :
  length (internalResults random products) = length (default [] products).
Proof. unfold internalResults. apply length_imap. Qed.

(** X24. A [200] answer of the image-upload search lists 20 results or
    all candidates, whichever is fewer: with [n] posts from the query there
    are [min 20 (n + 2)] results, and with at most 18 posts nothing is left
    out, the results being a reordering of the internal results and the two
    external ones. *)
Theorem image_search_result_count (file : option UploadedFile) (answer : DbAnswer)
    (random : nat → Q) (body : SearchBody) :
  image_search file (Resolves answer) random = Status200 body →
  let n := length (default [] (db_data answer)) in
  totalResults body = Nat.min 20 (n + 2)
  ∧ ((n ≤ 18)%nat →
     results body ≡ₚ internalResults random (db_data answer) ++ externalResults).
Proof.
  unfold image_search. destruct file as [f|]; [|done]. intros [= <-]. cbn.
  unfold allResults, slice_0_20.
  assert (length (sort_by_similarity
                    (internalResults random (db_data answer) ++ externalResults))
          = length (default [] (db_data answer)) + 2) as Hlen.
  { rewrite (Permutation_length (ImageSearchProps.sort_by_similarity_perm _)).
    rewrite length_app, internalResults_length. done. }
  split.
  - rewrite length_take, Hlen. done.
  - intros Hn. rewrite take_ge by lia.
    apply ImageSearchProps.sort_by_similarity_perm.
Qed.

Lemma descending_trans : Transitive descending.
Proof. intros a b c Hab Hbc. unfold descending in *. by eapply Qle_trans. Qed.

(** X25. The first result of a [200] answer is a best match: no
    candidate, internal or external, listed or cut off, has a higher
    similarity. *)
Theorem image_search_best_first (file : option UploadedFile) (answer : DbAnswer)
    (random : nat → Q) (body : SearchBody) (best : SearchResult)
    (rest : list SearchResult) :
  image_search file (Resolves answer) random = Status200 body →
  results body = best :: rest →
  ∀ x, x ∈ internalResults random (db_data answer) ++ externalResults →
       (similarity_or_0 x <= similarity_or_0 best)%Q.
Proof.
  unfold image_search. destruct file as [f|]; [|done]. intros [= <-]. cbn.
  unfold allResults, slice_0_20. intros Hres x Hx.
  pose proof (ImageSearchProps.sort_by_similarity_sorted
                (internalResults random (db_data answer) ++ externalResults)) as Hs.
  rewrite <- (ImageSearchProps.sort_by_similarity_perm _) in Hx.
  destruct (sort_by_similarity _) as [|y l]; [done|].
  cbn in Hres. injection Hres as -> _.
  apply (@Sorted_StronglySorted _ descending descending_trans) in Hs.
  apply StronglySorted_inv in Hs as [_ Hall].
  apply elem_of_cons in Hx as [->|Hx]; [apply Qle_refl|].
  rewrite Forall_forall in Hall. by apply Hall.
Qed.

End MoreImageSearch.

Module MorePosts.
Import PostsApi.


(** X27. Without a limit (none given, or 0) [getPosts] asks for all
    rows, reports the limit 20, and says there is more exactly when the
    table answered with 20 rows. *)
Theorem getPosts_without_limit (params : option PageParams) (data : list JsObject) :
  number_or (params ≫= limit) 0 = 0%Z →
  q_range (getPosts_query params) = None
  ∧ ∃ pg, getPosts params (Resolves {| rows := Some data; rows_error := None |})
          = Ok {| posts := Some data; pagination := pg |}
          ∧ pg_limit pg = 20%Z
          ∧ (hasMore pg = true ↔ length data = 20).
Proof.
  intros Hl. unfold getPosts_query, page_range, getPosts, paginate, number_or in *.
  cbn [q_range rows rows_error].
  destruct (params ≫= limit) as [l|].
  - destruct (decide (l = 0%Z)) as [->|Hne]; [|done].
    split; [done|]. eexists. split; [reflexivity|]. cbn.
    split; [done|]. rewrite bool_decide_eq_true. lia.
  - split; [done|]. eexists. split; [reflexivity|]. cbn.
    split; [done|]. rewrite bool_decide_eq_true. lia.
Qed.

(** X28. [createPost] decides author and publication itself: the row
    it inserts has the hosted user's id as [author_id] and [is_published]
    true, also when the payload names another author or says unpublished,
    and every other field is the payload's.  When the hosted service reports
    no user it throws ['Not authenticated'] and inserts nothing. *)
Theorem createPost_author (postData : JsObject) (whoami : UserResponse)
    (inserted : Outcome QueryResult) :
  match u_user whoami with
  | Some su =>
      ∃ row, (createPost postData (Resolves whoami) inserted).1
             = [AuthGetUser; InsertPost row]
             ∧ row !! "author_id" = Some (JStr (su_id su))
             ∧ row !! "is_published" = Some (JBool true)
             ∧ ∀ f, f ≠ "author_id" → f ≠ "is_published" → row !! f = postData !! f
  | None =>
      createPost postData (Resolves whoami) inserted
      = ([AuthGetUser], Threw (Error "Not authenticated"))
  end.
Proof.
  unfold createPost. destruct (u_user whoami) as [su|]; [|done].
  exists (post_row postData (su_id su)). split.
  - by destruct inserted as [e|q]; [|destruct (error q)].
  - unfold post_row. split; [by simplify_map_eq|]. split; [by simplify_map_eq|].
    intros f Hf1 Hf2. by simplify_map_eq.
Qed.

End MorePosts.

Module MoreFeed.
Import Feed.

(** X29. Of the three products of the feed only the Organic Face Serum
    can be recommended, and only to a user whose color season is ['light'],
    ['medium'] or ['olive']: the height is never known, so the two products
    with recommended heights never match, for any user. *)
Theorem matchedProducts_only_serum (user : option Profile) :
  matchedProducts user
  = if bool_decide (skinTone user ∈ ["light"; "medium"; "olive"])
    then [serum] else [].
Proof.
  unfold matchedProducts, products, toneOk, heightOk, height. cbn.
  rewrite !andb_false_r, andb_true_r.
  assert (bool_decide ("all" ∈ ["light"; "medium"; "olive"]) = false) as ->
    by (apply bool_decide_eq_false_2; set_unfold; intros H; destruct_or?; done).
  rewrite orb_false_r. by case_bool_decide.
Qed.

(** X30. No color season the profile form can save leads to a product
    recommendation, and neither does a missing profile or a missing color
    season: the feed then recommends the three influencers and no product. *)
Theorem no_product_for_form_seasons (season : string) (bt sp : option string) :
  season ∈ colorSeasonOptions →
  matchedProducts (Some {| color_season := Some season; body_type := bt;
                           style_preference := sp |}) = []
  ∧ matchedProducts None = []
  ∧ matchedProducts (Some {| color_season := None; body_type := bt;
                             style_preference := sp |}) = []
  ∧ length (getPersonalizedRecommendations
              (Some {| color_season := Some season; body_type := bt;
                       style_preference := sp |})).1 = 3.
Proof.
  intros Hin. unfold colorSeasonOptions in Hin. set_unfold in Hin.
  destruct_or?; subst; try done; by vm_compute.
Qed.

End MoreFeed.

(** * Examples

    The theorems above at concrete inputs, and the inputs at which a later
    revision and an earlier one part ways. *)

Lemma login_in_flight_shared_witness :
  loginPromiseRef (initial ∅ ∅) = None
  ∧ let pending := @run demo (calls [(1, "a@x.com", "secret1");
                                     (2, "a@x.com", "secret1");
                                     (3, "a@x.com", "secret1")])
                        (idle (initial ∅ ∅)) in
    let settled := @step demo (Settle env_accepts) pending in
    login_requests (effects (store settled)) = 1
    ∧ length (returned settled) = 3
    ∧ (∀ caller p, (caller, p) ∈ returned settled → resolved settled !! p = Some true)
    ∧ loginPromiseRef (store settled) = None.
Proof.
  split; [reflexivity|]. cbv zeta.
  destruct (@login_in_flight_shared demo (initial ∅ ∅) (1, "a@x.com", "secret1")
              [(2, "a@x.com", "secret1"); (3, "a@x.com", "secret1")] env_accepts eq_refl)
    as (_ & Hreq & _ & Hlen & (b & Hb & Hsame) & Hclear).
  split; [exact Hreq|]. split; [exact Hlen|]. split; [|exact Hclear].
  intros caller p Hin. destruct (Hsame caller p Hin) as [_ Hres].
  rewrite Hres. f_equal.
  assert (Ok b = Ok true) as Heq by (rewrite <- Hb; vm_compute; reflexivity).
  by injection Heq.
Defined.



Lemma cached_profile_invariant_witness :
  @cached_profile demo
    (@run_trace demo [(OpLoginCall "a@x.com" "secret1", env_accepts);
                      (OpRefreshUser, env_fetch_down);
                      (OpLoginTask, env_accepts)]
                (initial ∅ ∅)).
Proof.
  exact (proj1 (@cached_profile_invariant demo
                  [(OpLoginCall "a@x.com" "secret1", env_accepts);
                   (OpRefreshUser, env_fetch_down);
                   (OpLoginTask, env_accepts)] ∅ ∅)).
Defined.



Lemma env_fetch_down_fails : ProfileFetchFailure env_fetch_down.
Proof. by eapply (getUser_rejects _ (Some session_t) "t"). Defined.

Lemma refreshUser_failure_example :
  user logged_in = Some alice
  ∧ ProfileFetchFailure env_fetch_down
  ∧ (∃ s', @V1.refreshUser demo env_fetch_down logged_in = (Ok tt, s')
           ∧ user s' = Some alice ∧ isAuthenticated s' = true)
  ∧ (∃ s', @V2.refreshUser demo env_fetch_down logged_in = (Ok tt, s')
           ∧ user s' = None ∧ isAuthenticated s' = false).
Proof.
  split; [reflexivity|]. split; [exact env_fetch_down_fails|].
  destruct (@refreshUser_failure_outcome demo env_fetch_down logged_in alice eq_refl)
    as (Hv1 & _ & Hv2).
  split; [apply Hv1; right; exact env_fetch_down_fails
         |apply Hv2; exact env_fetch_down_fails].
Defined.

(** C5.  Second revision, with [alice] in memory: the session check of
    [refreshUser] finds a session with a token, the call to
    [supabase.auth.getUser] made by the profile fetch rejects with a network
    error, and [refreshUser] returns with the in-memory user null and
    [isAuthenticated] false.  The comment in the [catch] block of this
    [refreshUser] and the first revision keep the user, as the claim says. *)
Theorem refreshUser_v2_clears_user :
  user logged_in = Some alice
  ∧ isAuthenticated logged_in = true
  ∧ getSession_o env_fetch_down = Resolves (Some session_t)
  ∧ getUser_o env_fetch_down = Rejects (Error "Failed to fetch")
  ∧ (@V2.refreshUser demo env_fetch_down logged_in).1 = Ok tt
  ∧ user (@V2.refreshUser demo env_fetch_down logged_in).2 = None
  ∧ isAuthenticated (@V2.refreshUser demo env_fetch_down logged_in).2 = false
  ∧ user (@V1.refreshUser demo env_fetch_down logged_in).2 = Some alice.
Proof. repeat split; vm_compute; reflexivity. Qed.

Lemma updateUser_without_user_witness :
  user cached_only = None
  ∧ ∃ s', @V1.updateUser demo {[ "bio" := JStr "x" ]} env_accepts cached_only
          = (Threw (Error "No user logged in"), s')
          ∧ user s' = None
          ∧ localStorage s' = localStorage cached_only
          ∧ sessionStorage s' = sessionStorage cached_only
          ∧ effects s' = effects cached_only ++ [ConsoleError "Update error:";
                                                 ToastError "No user logged in"]
          ∧ ∀ p k, UpdateUser p k ∈ effects s' → UpdateUser p k ∈ effects cached_only.
Proof.
  split; [reflexivity|].
  apply (@updateUser_without_user demo {[ "bio" := JStr "x" ]} env_accepts cached_only).
  reflexivity.
Defined.


(** The row [updateUser] writes is the one of the user in memory, and
    the profile it keeps is the table's answer, not the payload merged into
    the old profile: here the payload names another [id], and the table set
    [updated_at] itself. *)
Example updateUser_not_a_merge :
  let payload : JsObject := {[ "bio" := JStr "x"; "id" := JStr "u2" ]} in
  let s' := (@V1.updateUser demo payload env_accepts logged_in).2 in
  effects s' = [UpdateUser (<["updated_at" := JStr "2025-01-01T00:00:00.000Z"]> payload)
                           (Some (JStr "u1"));
                ToastSuccess "Profile updated successfully!"]
  ∧ user s' ≠ Some (<["updated_at" := JStr "2025-01-01T00:00:00.000Z"]> payload ∪ alice)
  ∧ user s' = data {| data := Some (<["bio" := JStr "x"]>
                                      (<["updated_at" := JStr "2025-01-01T00:00:05.000Z"]>
                                         alice));
                      error := None |}.
Proof.
  cbv zeta. split; [reflexivity|]. split; [|reflexivity].
  intros Heq. apply (f_equal (λ u, u ≫= lookup "id")) in Heq.
  vm_compute in Heq. discriminate Heq.
Qed.

Lemma refreshUser_restores_cache_witness :
  getSession_o env_accepts = Resolves None
  ∧ localStorage cached_only !! "auth_user" = Some (demo_stringify (Some alice))
  ∧ user cached_only = None
  ∧ user (@V1.refreshUser demo env_accepts cached_only).2 = Some alice.
Proof.
  split; [reflexivity|]. split; [reflexivity|]. split; [reflexivity|].
  destruct (@refreshUser_restores_cache demo env_accepts cached_only None
              (demo_stringify (Some alice)) eq_refl eq_refl eq_refl)
    as (s' & Hrun & Hparsed); [by vm_compute|reflexivity|].
  rewrite Hrun. cbn.
  assert (@JSON_parse demo (demo_stringify (Some alice)) = Some (Some alice)) as Hp
    by reflexivity.
  rewrite Hp in Hparsed. by destruct Hparsed.
Defined.


Lemma image_search_results_witness :
  let body :=
    {| ImageSearch.success := true;
       ImageSearch.results :=
         ImageSearch.allResults (λ _, 0.85%Q) (Some [shoe]);
       ImageSearch.totalResults := 3;
       ImageSearch.processingTime := "1.2s" |} in
  ImageSearch.image_search
    (Some {| ImageSearch.originalname := "look.png"; ImageSearch.size := 1024 |})
    (Resolves {| ImageSearch.db_data := Some [shoe]; ImageSearch.db_error := None |})
    (λ _, 0.85%Q)
  = ImageSearch.Status200 body
  ∧ Sorted descending (ImageSearch.results body)
  ∧ ImageSearch.totalResults body = length (ImageSearch.results body).
Proof.
  cbv zeta. split; [reflexivity|].
  destruct (ImageSearchProps.image_search_results
              (Some {| ImageSearch.originalname := "look.png"; ImageSearch.size := 1024 |})
              (Resolves {| ImageSearch.db_data := Some [shoe];
                           ImageSearch.db_error := None |})
              (λ _, 0.85%Q) _ eq_refl)
    as (answer & _ & _ & _ & _ & Hsorted & _ & _ & Htotal).
  split; [exact Hsorted|exact Htotal].
Defined.

(** The order the three results come in: the mock at 0.92, the mock at
    0.87, the shoe at 0.85. *)
Example image_search_order :
  map ImageSearch.id (ImageSearch.allResults (λ _, 0.85%Q) (Some [shoe]))
  = ["ext-1"; "ext-2"; "p1"].
Proof. reflexivity. Qed.

(** ** Further examples *)

Lemma login_after_settle_sends_again_witness :
  loginPromiseRef (initial ∅ ∅) = None
  ∧ let m := @run demo [Call 1 "a@x.com" "secret1"; Settle env_accepts;
                        Call 2 "a@x.com" "secret1"]
                  (idle (initial ∅ ∅)) in
    login_requests (effects (store m)) = 2
    ∧ returned m = [(2, 1); (1, 0)].
Proof.
  split; [reflexivity|]. cbv zeta.
  destruct (@login_after_settle_sends_again demo (initial ∅ ∅) 1 2
              "a@x.com" "secret1" "a@x.com" "secret1" env_accepts eq_refl)
    as (Hreq & Hret & _).
  split; [exact Hreq|exact Hret].
Defined.

Lemma login_timeout_message_witness :
  fetch_o env_timeout = Rejects (AbortError "The operation was aborted.")
  ∧ ∃ s', @V1.login_task demo env_timeout logged_in = (Ok false, s')
          ∧ user s' = None
          ∧ localStorage s' !! "auth_user" = None.
Proof.
  split; [reflexivity|].
  destruct (@login_timeout_message demo env_timeout logged_in _ eq_refl)
    as (s' & Hrun & _ & Hu & Hl).
  by exists s'.
Defined.

Lemma api_login_installs_tokens_witness :
  fetch_o env_tokens_rejected
  = Resolves (Some {| r_user := Some alice; r_session := None;
                      r_tokens := Some ("t", "r") |})
  ∧ (ApiClient.login "a@x.com" "secret1" env_tokens_rejected (initial ∅ ∅)).1
    = Threw (Error "Failed to fetch").
Proof.
  split; [reflexivity|].
  pose proof (api_login_installs_tokens "a@x.com" "secret1" env_tokens_rejected
                (initial ∅ ∅) _ eq_refl) as Hrun.
  cbn [r_tokens setSession_o env_tokens_rejected] in Hrun.
  by rewrite Hrun.
Defined.

Lemma register_failure_witness :
  fetch_o env_refuses = Rejects (Error "Invalid credentials")
  ∧ ∃ s', @V1.register demo
            {| rd_name := "A"; rd_email := "a@x.com"; rd_password := "secret1";
               rd_phone := None; rd_gender := "male" |}
            env_refuses logged_in = (Threw (Error "Invalid credentials"), s')
          ∧ user s' = Some alice.
Proof.
  split; [reflexivity|].
  destruct (@register_failure demo
              {| rd_name := "A"; rd_email := "a@x.com"; rd_password := "secret1";
                 rd_phone := None; rd_gender := "male" |}
              env_refuses logged_in _ eq_refl)
    as (s' & Hrun & Hu & _).
  exists s'. split; [exact Hrun|exact Hu].
Defined.

Lemma register_without_user_witness :
  fetch_o env_no_user
  = Resolves (Some {| r_user := None; r_session := None; r_tokens := None |})
  ∧ ∃ s', @V1.register demo
            {| rd_name := "A"; rd_email := "a@x.com"; rd_password := "secret1";
               rd_phone := None; rd_gender := "male" |}
            env_no_user (initial ∅ ∅) = (Ok tt, s')
          ∧ user s' = None
          ∧ ToastSuccess "Account created successfully!" ∈ effects s'.
Proof.
  split; [reflexivity|].
  destruct (@register_without_user demo
              {| rd_name := "A"; rd_email := "a@x.com"; rd_password := "secret1";
                 rd_phone := None; rd_gender := "male" |}
              env_no_user (initial ∅ ∅) _ eq_refl eq_refl)
    as (s' & Hrun & Hu & _ & _ & Htoast).
  exists s'. split; [exact Hrun|]. split; [exact Hu|exact Htoast].
Defined.

Lemma fetchUserProfile_first_login_witness :
  getUser_o env_first_login = Resolves {| u_user := Some bob; u_error := None |}
  ∧ no_profile {| data := None; error := Some "PGRST116" |}
  ∧ ∃ s', @V1.fetchUserProfile demo "t" env_first_login (initial ∅ ∅) = (Ok tt, s')
          ∧ user s' = Some bob_row
          ∧ isLoading s' = false.
Proof.
  split; [reflexivity|]. split; [by right|].
  destruct (@fetchUserProfile_first_login demo "t" env_first_login (initial ∅ ∅)
              _ bob _ bob_row eq_refl eq_refl eq_refl (or_intror eq_refl) eq_refl)
    as (s' & row & Hrun & _ & _ & _ & _ & _ & _ & _ & Hu & _ & Hl).
  exists s'. split; [exact Hrun|]. split; [exact Hu|exact Hl].
Defined.

Lemma checkAuth_drops_cache_witness :
  user cached_only = None
  ∧ getSession_o env_accepts = Resolves None
  ∧ ∃ s1 s2, @V1.checkAuth demo env_accepts cached_only = (Ok tt, s1)
             ∧ @V1.refreshUser demo env_accepts s1 = (Ok tt, s2)
             ∧ user s2 = None.
Proof.
  split; [reflexivity|]. split; [reflexivity|].
  destruct (@checkAuth_drops_cache demo env_accepts env_accepts cached_only None None
              eq_refl eq_refl eq_refl eq_refl eq_refl)
    as (s1 & s2 & Hcheck & _ & _ & Hrefresh & Hu & _).
  exists s1, s2. split; [exact Hcheck|]. split; [exact Hrefresh|exact Hu].
Defined.


Lemma auth_listener_events_witness :
  @V1.onAuthStateChange demo V1.SIGNED_OUT (Some session_t) env_accepts logged_in
  = (Ok tt, mkState None false None 0
                    (delete "auth_user" (localStorage logged_in))
                    (sessionStorage logged_in)
                    [ConsoleLog "Auth state change:"]).
Proof.
  exact (proj1 (@auth_listener_events demo V1.SIGNED_OUT (Some session_t)
                  env_accepts logged_in) eq_refl).
Defined.

Lemma updateUser_failure_witness :
  user logged_in = Some alice
  ∧ update_failure env_refuses (Error "Failed to update profile")
  ∧ ∃ s', @V1.updateUser demo {[ "bio" := JStr "x" ]} env_refuses logged_in
          = (Threw (Error "Failed to update profile"), s')
          ∧ user s' = Some alice
          ∧ localStorage s' = localStorage logged_in.
Proof.
  assert (update_failure env_refuses (Error "Failed to update profile")) as Hfail
    by (right; split; [reflexivity|by exists None, "denied"]).
  split; [reflexivity|]. split; [exact Hfail|].
  destruct (@updateUser_failure demo {[ "bio" := JStr "x" ]} env_refuses logged_in
              alice _ eq_refl Hfail)
    as (s' & Hrun & Hu & Hl & _).
  exists s'. split; [exact Hrun|]. split; [exact Hu|exact Hl].
Defined.

Lemma refreshUser_empty_cache_text_witness :
  localStorage cached_empty !! "auth_user" = Some EmptyString
  ∧ @V1.refreshUser demo env_accepts cached_empty
    = (Ok tt, mkState None false None 0 (localStorage cached_empty) ∅ [GetSession]).
Proof.
  split; [reflexivity|].
  exact (@refreshUser_empty_cache_text demo env_accepts cached_empty None
           eq_refl eq_refl eq_refl).
Defined.

Lemma login_v2_needs_user_in_memory_witness :
  user cached_only = None
  ∧ ∃ s', @V2.login demo "a@x.com" "secret1" env_accepts cached_only = (Ok false, s')
          ∧ user s' = None
          ∧ localStorage s' !! "auth_user" = None.
Proof.
  split; [reflexivity|].
  destruct (@login_v2_needs_user_in_memory demo "a@x.com" "secret1" env_accepts
              cached_only eq_refl)
    as (s' & Hrun & Hu & Hl & _).
  by exists s'.
Defined.

Lemma api_updateUser_unauthenticated_witness :
  getUser_o env_accepts = Resolves {| u_user := None; u_error := Some "no session" |}
  ∧ (ApiClient.updateUser "u1" {[ "bio" := JStr "x" ]} env_accepts logged_in).1
    = Threw (Error "no session").
Proof.
  split; [reflexivity|].
  destruct (api_updateUser_unauthenticated "u1" {[ "bio" := JStr "x" ]} env_accepts
              logged_in _ eq_refl (or_intror eq_refl))
    as (e & Hrun & ->).
  by rewrite Hrun.
Defined.

Lemma image_search_result_count_witness :
  ImageSearch.image_search (Some look_png) (Resolves one_shoe) (λ _, 0.85%Q)
  = ImageSearch.Status200
      {| ImageSearch.success := true;
         ImageSearch.results := ImageSearch.allResults (λ _, 0.85%Q) (Some [shoe]);
         ImageSearch.totalResults := 3;
         ImageSearch.processingTime := "1.2s" |}
  ∧ ImageSearch.allResults (λ _, 0.85%Q) (Some [shoe])
    ≡ₚ ImageSearch.internalResults (λ _, 0.85%Q) (Some [shoe])
       ++ ImageSearch.externalResults.
Proof.
  split; [reflexivity|].
  destruct (MoreImageSearch.image_search_result_count (Some look_png) one_shoe
              (λ _, 0.85%Q) _ eq_refl)
    as [_ Hperm].
  apply Hperm. cbn. lia.
Defined.

Lemma image_search_best_first_witness :
  map ImageSearch.id (ImageSearch.allResults (λ _, 0.85%Q) (Some [shoe]))
  = ["ext-1"; "ext-2"; "p1"]
  ∧ Forall (λ x, (ImageSearch.similarity_or_0 x <= 0.92)%Q)
           (ImageSearch.internalResults (λ _, 0.85%Q) (Some [shoe])
            ++ ImageSearch.externalResults).
Proof.
  split; [reflexivity|]. apply Forall_forall. intros x Hx.
  pose proof (MoreImageSearch.image_search_best_first (Some look_png) one_shoe
                (λ _, 0.85%Q) _ _ _ eq_refl eq_refl x Hx) as Hbest.
  exact Hbest.
Defined.


Lemma getPosts_without_limit_witness :
  PostsApi.number_or (None ≫= PostsApi.limit) 0 = 0%Z
  ∧ PostsApi.q_range (PostsApi.getPosts_query None) = None.
Proof.
  split; [reflexivity|].
  exact (proj1 (MorePosts.getPosts_without_limit None [] eq_refl)).
Defined.

Lemma no_product_for_form_seasons_witness :
  "winter" ∈ Feed.colorSeasonOptions
  ∧ Feed.matchedProducts
      (Some {| Feed.color_season := Some "winter"; Feed.body_type := None;
               Feed.style_preference := None |}) = [].
Proof.
  assert ("winter" ∈ Feed.colorSeasonOptions) as Hin
    by (unfold Feed.colorSeasonOptions; set_solver).
  split; [exact Hin|].
  exact (proj1 (MoreFeed.no_product_for_form_seasons "winter" None None Hin)).
Defined.
